(** * toDoList: the todo handlers of [main.go] over a document collection

  The development embeds the four request handlers of [main.go]
  ([fetchTodos], [createTodo], [deleteTodo], [updateTodo]) together with
  the parts of the libraries they call that decide their behaviour:
  - [encoding/hex] and the object identifiers of [gopkg.in/mgo.v2/bson];
  - the decoding of a request body into the [todo] struct;
  - the [todo] collection of the document store, with its unique [_id];
  - the renderer, at the level of the status and value a handler hands to
    [rnd.JSON], and the JSON text that [encoding/json] makes of that value;
  - the panic recovery that [main] installs around every handler.

  Go strings are byte sequences, and so are Rocq's [string]s: a Go [string]
  (and [bson.ObjectId], declared [type ObjectId string]) is a [string]. *)

From Stdlib Require Import ZArith NArith Bool List Ascii String Lia.
Import ListNotations.
Local Open Scope string_scope.
Local Open Scope Z_scope.
Local Open Scope list_scope.

(** ** encoding/hex *)

Module hex.

Definition hextable : string := "0123456789abcdef".

(** [hextable[i]] *)
Definition index (i : N) : ascii :=
  match String.get (N.to_nat i) hextable with
  | Some c => c
  | None => "0"%char
  end.

(** The two digits [hextable[v>>4]], [hextable[v&0x0f]] per source byte. *)
Fixpoint EncodeToString (src : string) : string :=
  match src with
  | EmptyString => EmptyString
  | String v rest =>
      String (index (N.shiftr (N_of_ascii v) 4))
        (String (index (N.land (N_of_ascii v) 15)) (EncodeToString rest))
  end.

Definition between (lo c hi : ascii) : bool :=
  (N_of_ascii lo <=? N_of_ascii c)%N && (N_of_ascii c <=? N_of_ascii hi)%N.

(** The value of a hexadecimal digit, in either case; [None] for any other
    byte. *)
Definition fromHexChar (c : ascii) : option N :=
  if between "0" c "9" then Some (N_of_ascii c - N_of_ascii "0")%N
  else if between "a" c "f" then Some (N_of_ascii c - N_of_ascii "a" + 10)%N
  else if between "A" c "F" then Some (N_of_ascii c - N_of_ascii "A" + 10)%N
  else None.

(** [DecodeString]: [None] stands for a non-nil error ([InvalidByteError]
    or [ErrLength]); each pair of digits gives the byte [(a << 4) | b]. *)
Fixpoint DecodeString (s : string) : option string :=
  match s with
  | EmptyString => Some EmptyString
  | String _ EmptyString => None
  | String p (String q rest) =>
      match fromHexChar p, fromHexChar q with
      | Some a, Some b =>
          match DecodeString rest with
          | Some d => Some (String (ascii_of_N (N.lor (N.shiftl a 4) b)) d)
          | None => None
          end
      | _, _ => None
      end
  end.

End hex.

(** ** gopkg.in/mgo.v2/bson: object identifiers *)

Module bson.

(** [type ObjectId string]: the raw bytes of the identifier. *)
Definition ObjectId : Type := string.

(** [func (id ObjectId) Hex() string] *)
Definition Hex (id : ObjectId) : string := hex.EncodeToString id.

(** [IsObjectIdHex]: 24 characters that decode as hexadecimal. *)
Definition IsObjectIdHex (s : string) : bool :=
  if negb (Nat.eqb (String.length s) 24) then false
  else match hex.DecodeString s with
       | Some _ => true
       | None => false
       end.

(** [ObjectIdHex] panics when the text does not decode or does not decode
    to 12 bytes; [None] is that panic. *)
Definition ObjectIdHex (s : string) : option ObjectId :=
  match hex.DecodeString s with
  | Some d => if Nat.eqb (String.length d) 12 then Some d else None
  | None => None
  end.

(** What [NewObjectId] reads from the process and the clock. *)
Record source := {
  unix : Z;                 (* time.Now().Unix() *)
  machineId : ascii * ascii * ascii;
  processId : Z;
  objectIdCounter : Z       (* the result of atomic.AddUint32(&objectIdCounter, 1) *)
}.

(** Go's [byte(x)] conversion of an integer. *)
Definition byte (x : Z) : ascii := ascii_of_N (Z.to_N (x mod 256)).

(** [NewObjectId]: 4 bytes of time, 3 of machine, 2 of pid, 3 of counter,
    each big endian. *)
Definition NewObjectId (s : source) : ObjectId :=
  let ts := unix s mod 2 ^ 32 in
  let '(m0, m1, m2) := machineId s in
  let i := objectIdCounter s mod 2 ^ 32 in
  string_of_list_ascii
    [ byte (Z.shiftr ts 24); byte (Z.shiftr ts 16); byte (Z.shiftr ts 8); byte ts;
      m0; m1; m2;
      byte (Z.shiftr (processId s) 8); byte (processId s);
      byte (Z.shiftr i 16); byte (Z.shiftr i 8); byte i ].

End bson.

(** ** Data of [main.go] *)

(** A [time.Time], as an instant counted from Go's zero [Time]. *)
Definition Time : Type := Z.

(** The stored shape, [bson] tags [_id], [title], [completed], [createdAt]. *)
Record todoModel := {
  m_ID : bson.ObjectId;
  m_Title : string;
  m_Completed : bool;
  m_CreatedAt : Time
}.

(** The wire shape, [json] tags [id], [title], [completed], [createdAt]. *)
Record todo := {
  t_ID : string;
  t_Title : string;
  t_Completed : bool;
  t_CreatedAt : Time
}.

(** [var t todo]: every field at its zero value. *)
Definition zero_todo : todo :=
  {| t_ID := ""; t_Title := ""; t_Completed := false; t_CreatedAt := 0 |}.

(** A Go slice: the nil slice is not the empty slice, and [encoding/json]
    tells them apart. *)
Inductive slice (A : Type) : Type :=
| nil_slice
| elems (l : list A).
Arguments nil_slice {A}.
Arguments elems {A} l.

Definition items {A : Type} (s : slice A) : list A :=
  match s with
  | nil_slice => []
  | elems l => l
  end.

(** [append(s, x)] always yields a non-nil slice. *)
Definition append {A : Type} (s : slice A) (x : A) : slice A :=
  elems (items s ++ [x]).

(** ** Error values and JSON text *)

(** JSON values as [encoding/json] writes them. [JTime] is the JSON string
    holding an instant in RFC 3339 form; [JDriver] is the encoding of an
    error value of the database driver, which this development leaves
    undetermined. *)
#[warnings="-register-all"]
Inductive json : Type :=
| JNull
| JBool (b : bool)
| JNum (z : Z)
| JStr (s : string)
| JTime (t : Time)
| JDriver (text : string)
| JArr (l : list json)
| JObj (members : list (string * json)).

(** The error values the handlers can hold: those [Decode] returns for a
    [todo] target, and the driver's. *)
Inductive go_error : Type :=
| SyntaxError (msg : string) (Offset : Z)                 (* *json.SyntaxError *)
| UnmarshalTypeError (Value : string) (Offset : Z) (Struct Field : string)
                                                          (* *json.UnmarshalTypeError *)
| errorString (s : string)                                (* io.EOF, io.ErrUnexpectedEOF *)
| ParseError (Layout Value LayoutElem ValueElem Message : string)
                                                          (* *time.ParseError *)
| DriverError (text : string).                            (* an error of the mongo driver *)

(** [json.Marshal] of an error value: an object of the exported fields of
    the struct behind it. *)
Definition marshal_error (e : go_error) : json :=
  match e with
  | SyntaxError _ off => JObj [("Offset", JNum off)]
  | UnmarshalTypeError v off s f =>
      JObj [("Value", JStr v); ("Type", JObj []); ("Offset", JNum off);
            ("Struct", JStr s); ("Field", JStr f)]
  | errorString _ => JObj []
  | ParseError l v le ve m =>
      JObj [("Layout", JStr l); ("Value", JStr v); ("LayoutElem", JStr le);
            ("ValueElem", JStr ve); ("Message", JStr m)]
  | DriverError text => JDriver text
  end.

Definition marshal_todo (t : todo) : json :=
  JObj [("id", JStr (t_ID t)); ("title", JStr (t_Title t));
        ("completed", JBool (t_Completed t)); ("createdAt", JTime (t_CreatedAt t))].

(** The values placed in a [renderer.M]. *)
Inductive value : Type :=
| Str (s : string)
| Error (e : go_error)
| Todos (l : slice todo).

Definition marshal_value (v : value) : json :=
  match v with
  | Str s => JStr s
  | Error e => marshal_error e
  | Todos nil_slice => JNull
  | Todos (elems l) => JArr (map marshal_todo l)
  end.

(** What a response carries: a [renderer.M] (members in the order of the
    source literal), a bare error value, or no JSON at all. *)
Inductive payload : Type :=
| M (members : list (string * value))
| Bare (e : go_error)
| NoJSON.

Definition marshal (p : payload) : option json :=
  match p with
  | M ms => Some (JObj (map (fun kv => (fst kv, marshal_value (snd kv))) ms))
  | Bare e => Some (marshal_error e)
  | NoJSON => None
  end.

(** The member of a JSON object under a key. *)
Fixpoint member (k : string) (ms : list (string * json)) : option json :=
  match ms with
  | [] => None
  | (k', v) :: rest => if String.eqb k k' then Some v else member k rest
  end.

(** The JSON text is an object and has a member under [k]. *)
Definition has_field (k : string) (j : option json) : bool :=
  match j with
  | Some (JObj ms) => match member k ms with Some _ => true | None => false end
  | _ => false
  end.

Definition StatusProcessing : Z := 102.
Definition StatusOK : Z := 200.
Definition StatusCreated : Z := 201.
Definition StatusBadRequest : Z := 400.
Definition StatusInternalServerError : Z := 500.

(** A response: the status and the value a handler hands to [rnd.JSON]. *)
Record response := {
  status : Z;
  content : payload
}.

(** ** Requests *)

(** The members of a request body that [Decode] stores into a [todo]:
    [None] for a member that is absent (or [null]), which leaves the field
    of the target as it was. *)
Record fields := {
  f_id : option string;
  f_title : option string;
  f_completed : option bool;
  f_createdAt : option Time
}.

(** A request body, by what [json.NewDecoder(r.Body).Decode(&t)] makes of
    it. [Decodable]: the decoder returns no error (the first JSON value of
    the body is [null] or an object whose members for the four fields, where
    present, have the type of the field or are [null]) and stores the
    members. [Undecodable]: the decoder returns the error (the body is not
    JSON, is empty, or holds a value of another kind). *)
Inductive body : Type :=
| Undecodable (err : go_error)
| Decodable (f : fields).

Definition or_keep {A : Type} (o : option A) (old : A) : A :=
  match o with
  | Some v => v
  | None => old
  end.

(** [Decode(&t)]: the error returned and the target afterwards (which no
    handler reads after an error). *)
Definition Decode (b : body) (t : todo) : option go_error * todo :=
  match b with
  | Undecodable err => (Some err, t)
  | Decodable f =>
      (None, {| t_ID := or_keep (f_id f) (t_ID t);
                t_Title := or_keep (f_title f) (t_Title t);
                t_Completed := or_keep (f_completed f) (t_Completed t);
                t_CreatedAt := or_keep (f_createdAt f) (t_CreatedAt t) |})
  end.

Record request := {
  URLParam_id : string;        (* chi.URLParam(r, "id") *)
  Body : body
}.

(** ** The collection of the document store *)

Module mongo.

(** The documents of the [todo] collection, in the order the store returns
    them. *)
Definition Collection : Type := list todoModel.

(** How the store answers one write: it performs it and reports no error,
    fails before performing it, or performs it and still reports an error
    (a write concern error, a reply lost on the way back). *)
Inductive write_fault : Type :=
| NoFault
| FailsUnapplied (err : go_error)
| FailsApplied (err : go_error).

(** How the store answers one read: [Find] itself fails, the document at
    some position does not decode, or the cursor stops early with an
    error. *)
Inductive read_fault : Type :=
| NoReadFault
| FindFails (err : go_error)
| DecodeFails (position : nat) (err : go_error)
| CursorFails (position : nat) (err : go_error).

(** A cursor: what each successive [Next]/[Decode] yields, and [Err()]
    once [Next] has returned false. *)
Record Cursor := {
  documents : list (go_error + todoModel);
  Err : option go_error
}.

Definition Find (c : Collection) (f : read_fault) : go_error + Cursor :=
  match f with
  | NoReadFault => inr {| documents := map inr c; Err := None |}
  | FindFails err => inl err
  | DecodeFails n err =>
      inr {| documents :=
               map inr (firstn n c) ++
               match skipn n c with
               | [] => []
               | _ :: rest => inl err :: map inr rest
               end;
             Err := None |}
  | CursorFails n err => inr {| documents := map inr (firstn n c); Err := Some err |}
  end.

Definition has_id (id : bson.ObjectId) (c : Collection) : bool :=
  existsb (fun d => String.eqb (m_ID d) id) c.

(** The error of the unique index on [_id]. *)
Definition E11000 : go_error := DriverError "E11000 duplicate key error".

Definition InsertOne (c : Collection) (doc : todoModel) (f : write_fault)
  : Collection * option go_error :=
  match f with
  | FailsUnapplied err => (c, Some err)
  | NoFault => if has_id (m_ID doc) c then (c, Some E11000) else (c ++ [doc], None)
  | FailsApplied err =>
      if has_id (m_ID doc) c then (c, Some E11000) else (c ++ [doc], Some err)
  end.

(** Removal of the first document under the identifier, if there is one. *)
Fixpoint delete_first (id : bson.ObjectId) (c : Collection) : Collection :=
  match c with
  | [] => []
  | d :: rest => if String.eqb (m_ID d) id then rest else d :: delete_first id rest
  end.

Definition DeleteOne (c : Collection) (id : bson.ObjectId) (f : write_fault)
  : Collection * option go_error :=
  match f with
  | NoFault => (delete_first id c, None)
  | FailsUnapplied err => (c, Some err)
  | FailsApplied err => (delete_first id c, Some err)
  end.

(** [$set] of [title] and [completed]. *)
Definition set_fields (title : string) (completed : bool) (d : todoModel) : todoModel :=
  {| m_ID := m_ID d; m_Title := title; m_Completed := completed;
     m_CreatedAt := m_CreatedAt d |}.

(** The [$set] applied to the first document under the identifier, if there
    is one. *)
Fixpoint update_first (id : bson.ObjectId) (title : string) (completed : bool)
  (c : Collection) : Collection :=
  match c with
  | [] => []
  | d :: rest =>
      if String.eqb (m_ID d) id then set_fields title completed d :: rest
      else d :: update_first id title completed rest
  end.

Definition UpdateOne (c : Collection) (id : bson.ObjectId) (title : string)
  (completed : bool) (f : write_fault) : Collection * option go_error :=
  match f with
  | NoFault => (update_first id title completed c, None)
  | FailsUnapplied err => (c, Some err)
  | FailsApplied err => (update_first id title completed c, Some err)
  end.

End mongo.

(** ** Handlers as state transformers *)

(** The storage calls a handler makes, in order. *)
Inductive storage_call : Type :=
| CallFind
| CallInsertOne (doc : todoModel)
| CallDeleteOne (id : bson.ObjectId)
| CallUpdateOne (id : bson.ObjectId) (title : string) (completed : bool).

(** What one request meets outside the handler: the identifier source, the
    clock, and the answers of the store. *)
Record env := {
  id_source : bson.source;
  time_Now : Time;
  reads : mongo.read_fault;
  writes : mongo.write_fault
}.

(** The shared [collection] and the calls made on it so far. *)
Record world := {
  collection : mongo.Collection;
  calls : list storage_call
}.

(** A handler ends by rendering a response and returning, or by a panic. *)
Inductive outcome : Type :=
| Responded (r : response)
| Panicked (input : string).

(** A computation inside a handler: it goes on with a value, or the handler
    is over. *)
Definition handler (A : Type) : Type := world -> (A + outcome) * world.

Definition ret {A : Type} (x : A) : handler A := fun w => (inl x, w).

Definition bind {A B : Type} (m : handler A) (k : A -> handler B) : handler B :=
  fun w =>
    match m w with
    | (inl x, w') => k x w'
    | (inr o, w') => (inr o, w')
    end.

Notation "x <- m ;; k" := (bind m (fun x => k))
  (at level 61, m at next level, right associativity).

(** [rnd.JSON(w, status, v); return] *)
Definition JSON {A : Type} (st : Z) (v : payload) : handler A :=
  fun w => (inr (Responded {| status := st; content := v |}), w).

Definition panic {A : Type} (input : string) : handler A :=
  fun w => (inr (Panicked input), w).

Definition call (k : storage_call) (w : world) : list storage_call := calls w ++ [k].

Definition collection_Find (e : env) : handler (go_error + mongo.Cursor) :=
  fun w =>
    (inl (mongo.Find (collection w) (reads e)),
     {| collection := collection w; calls := call CallFind w |}).

Definition collection_InsertOne (e : env) (tm : todoModel) : handler (option go_error) :=
  fun w =>
    let '(c, err) := mongo.InsertOne (collection w) tm (writes e) in
    (inl err, {| collection := c; calls := call (CallInsertOne tm) w |}).

Definition collection_DeleteOne (e : env) (id : bson.ObjectId) : handler (option go_error) :=
  fun w =>
    let '(c, err) := mongo.DeleteOne (collection w) id (writes e) in
    (inl err, {| collection := c; calls := call (CallDeleteOne id) w |}).

Definition collection_UpdateOne (e : env) (id : bson.ObjectId) (title : string)
  (completed : bool) : handler (option go_error) :=
  fun w =>
    let '(c, err) := mongo.UpdateOne (collection w) id title completed (writes e) in
    (inl err, {| collection := c; calls := call (CallUpdateOne id title completed) w |}).

(** [bson.ObjectIdHex(id)], with its panic. *)
Definition bson_ObjectIdHex (s : string) : handler bson.ObjectId :=
  match bson.ObjectIdHex s with
  | Some id => ret id
  | None => panic s
  end.

(** ** The handlers of [main.go] *)

(** The loop [for fetch.Next(ctx) { ... fetch.Decode(&t) ... append }]. *)
Fixpoint fetch_loop (ds : list (go_error + todoModel)) (todos : slice todoModel)
  : go_error + slice todoModel :=
  match ds with
  | [] => inr todos
  | inl err :: _ => inl err
  | inr t :: rest => fetch_loop rest (append todos t)
  end.

(** The item appended to [todoList] for a stored document. *)
Definition as_todo (t : todoModel) : todo :=
  {| t_ID := bson.Hex (m_ID t);
     t_Title := m_Title t;
     t_Completed := m_Completed t;
     t_CreatedAt := m_CreatedAt t |}.

Definition fetch_failed (err : go_error) : payload :=
  M [("message", Str "Failed to fetch todos"); ("error", Error err)].

Definition fetchTodos (e : env) : handler unit :=
  let todos : slice todoModel := elems [] in
  found <- collection_Find e ;;
  match found with
  | inl err => JSON StatusProcessing (fetch_failed err)
  | inr fetch =>
      match fetch_loop (mongo.documents fetch) todos with
      | inl err => JSON StatusProcessing (fetch_failed err)
      | inr todos =>
          match mongo.Err fetch with
          | Some err => JSON StatusProcessing (fetch_failed err)
          | None =>
              let todoList : slice todo :=
                fold_left (fun acc t => append acc (as_todo t)) (items todos) (elems []) in
              JSON StatusOK (M [("data", Todos todoList)])
          end
      end
  end.

Definition createTodo (r : request) (e : env) : handler unit :=
  let '(err, t) := Decode (Body r) zero_todo in
  match err with
  | Some err => JSON StatusProcessing (Bare err)
  | None =>
      if String.eqb (t_Title t) "" then
        JSON StatusBadRequest (M [("message", Str "The title is required")])
      else
        let tm := {| m_ID := bson.NewObjectId (id_source e);
                     m_Title := t_Title t;
                     m_Completed := false;
                     m_CreatedAt := time_Now e |} in
        err <- collection_InsertOne e tm ;;
        match err with
        | Some err =>
            JSON StatusProcessing
              (M [("message", Str "Failed to save todo"); ("error", Error err)])
        | None =>
            JSON StatusCreated
              (M [("message", Str "Todo created successfully");
                  ("todo_id", Str (bson.Hex (m_ID tm)))])
        end
  end.

Definition deleteTodo (r : request) (e : env) : handler unit :=
  let id := URLParam_id r in
  if negb (bson.IsObjectIdHex id) then
    JSON StatusBadRequest (M [("message", Str "Invalid todo ID")])
  else
    objID <- bson_ObjectIdHex id ;;
    err <- collection_DeleteOne e objID ;;
    match err with
    | Some err =>
        JSON StatusProcessing
          (M [("message", Str "Failed to delete todo"); ("error", Error err)])
    | None => JSON StatusOK (M [("message", Str "Todo deleted successfully")])
    end.

Definition updateTodo (r : request) (e : env) : handler unit :=
  let id := URLParam_id r in
  if String.eqb id "" then
    JSON StatusBadRequest (M [("message", Str "The todo ID is required")])
  else
    let '(err, t) := Decode (Body r) zero_todo in
    match err with
    | Some err => JSON StatusProcessing (Bare err)
    | None =>
        if String.eqb (t_Title t) "" then
          JSON StatusBadRequest (M [("message", Str "The title is required")])
        else
          objID <- bson_ObjectIdHex id ;;
          err <- collection_UpdateOne e objID (t_Title t) (t_Completed t) ;;
          match err with
          | Some err =>
              JSON StatusProcessing
                (M [("message", Str "Failed to update todo"); ("error", Error err)])
          | None => JSON StatusOK (M [("message", Str "Todo successfully updated")])
          end
    end.

(** ** Running a handler, the router and the recovery middleware *)

(** What one request leaves behind. *)
Record result := {
  out : outcome;
  store : mongo.Collection;
  trace : list storage_call
}.

(** A handler run on a collection. A handler that returned without writing
    anything would be answered 200 by [net/http]; none of the four does. *)
Definition run (h : handler unit) (c : mongo.Collection) : result :=
  match h {| collection := c; calls := [] |} with
  | (inr o, w) => {| out := o; store := collection w; trace := calls w |}
  | (inl _, w) =>
      {| out := Responded {| status := StatusOK; content := NoJSON |};
         store := collection w; trace := calls w |}
  end.

(** The four routes of [todoHandlers]. *)
Inductive route : Type :=
| GET_todo          (* r.Get("/", fetchTodos) *)
| POST_todo         (* r.Post("/", createTodo) *)
| PUT_todo_id       (* r.Put("/{id}", updateTodo) *)
| DELETE_todo_id.   (* r.Delete("/{id}", deleteTodo) *)

Definition todoHandlers (rt : route) (r : request) (e : env) : handler unit :=
  match rt with
  | GET_todo => fetchTodos e
  | POST_todo => createTodo r e
  | PUT_todo_id => updateTodo r e
  | DELETE_todo_id => deleteTodo r e
  end.

(** [middleware.Recoverer]: a panic of the handler becomes a 500 that
    carries no JSON. *)
Definition Recoverer (o : outcome) : response :=
  match o with
  | Responded r => r
  | Panicked _ => {| status := StatusInternalServerError; content := NoJSON |}
  end.

(** One request through the router: the response sent and the collection
    afterwards. *)
Definition serve (rt : route) (r : request) (e : env) (c : mongo.Collection)
  : response * mongo.Collection :=
  let res := run (todoHandlers rt r e) c in
  (Recoverer (out res), store res).

(** The collections the service can reach from the empty one. *)
Inductive reachable : mongo.Collection -> Prop :=
| reach_empty : reachable []
| reach_serve (c : mongo.Collection) (rt : route) (r : request) (e : env) :
    reachable c -> reachable (snd (serve rt r e c)).

(** ** Sample requests and environments *)

Module sample.

Definition ids : bson.source :=
  {| bson.unix := 1700000000;
     bson.machineId := ("a"%char, "b"%char, "c"%char);
     bson.processId := 4242;
     bson.objectIdCounter := 7 |}.

(** A request served while the store answers without fault. *)
Definition calm : env :=
  {| id_source := ids; time_Now := 1000;
     reads := mongo.NoReadFault; writes := mongo.NoFault |}.

(** A request served while the store refuses every call. *)
Definition down : env :=
  {| id_source := ids; time_Now := 1000;
     reads := mongo.FindFails (DriverError "server selection error");
     writes := mongo.FailsUnapplied (DriverError "server selection error") |}.

Definition with_body (id : string) (title : option string) (completed : option bool)
  : request :=
  {| URLParam_id := id;
     Body := Decodable {| f_id := None; f_title := title;
                          f_completed := completed; f_createdAt := None |} |}.

(** The identifier [NewObjectId ids] and its hexadecimal form. *)
Definition milk_id : bson.ObjectId := bson.NewObjectId ids.
Definition milk_hex : string := "6553f1006162631092000007".

(** A stored item, completed. *)
Definition milk : todoModel :=
  {| m_ID := milk_id; m_Title := "buy milk"; m_Completed := true; m_CreatedAt := 1000 |}.

(** A well-formed identifier under which nothing is stored. *)
Definition other_hex : string := "0123456789abcdef01234567".

(** A body that is not JSON: the decoder stops at its first byte. *)
Definition garbled : request :=
  {| URLParam_id := milk_hex;
     Body := Undecodable
               (SyntaxError "invalid character 'x' looking for beginning of value" 1) |}.

End sample.

(** * Properties *)

(** ** Hexadecimal text and object identifiers *)

(** Induction over a string two bytes at a time, as [DecodeString] reads
    it. *)
Lemma string_pairs_ind (P : string -> Prop) :
  P EmptyString ->
  (forall a, P (String a EmptyString)) ->
  (forall a b s, P s -> P (String a (String b s))) ->
  forall s, P s.
Proof.
  intros H0 H1 H2.
  assert (both : forall s, P s /\ forall a, P (String a s)).
  { induction s as [|b s [IHs IHa]].
    - split; [exact H0 | exact H1].
    - split; [apply IHa | intro a; apply H2; exact IHs]. }
  intro s. apply both.
Qed.

Lemma DecodeString_length (s d : string) :
  hex.DecodeString s = Some d -> String.length s = (2 * String.length d)%nat.
Proof.
  revert d. induction s as [|a|a b s IH] using string_pairs_ind; intros d H.
  - inversion H. reflexivity.
  - discriminate H.
  - simpl in H.
    destruct (hex.fromHexChar a); [|discriminate].
    destruct (hex.fromHexChar b); [|discriminate].
    destruct (hex.DecodeString s) as [d'|] eqn:E; [|discriminate].
    inversion H; subst. simpl. rewrite (IH d' eq_refl). lia.
Qed.

Lemma EncodeToString_length (s : string) :
  String.length (hex.EncodeToString s) = (2 * String.length s)%nat.
Proof.
  induction s as [|a s IH]; simpl; [reflexivity | rewrite IH; lia].
Qed.

(** Both digits written for a byte read back as that byte. *)
Lemma digits_of_byte (v : ascii) :
  hex.fromHexChar (hex.index (N.shiftr (N_of_ascii v) 4)) = Some (N.shiftr (N_of_ascii v) 4)
  /\ hex.fromHexChar (hex.index (N.land (N_of_ascii v) 15)) = Some (N.land (N_of_ascii v) 15)
  /\ ascii_of_N (N.lor (N.shiftl (N.shiftr (N_of_ascii v) 4) 4) (N.land (N_of_ascii v) 15)) = v.
Proof.
  destruct v as [[] [] [] [] [] [] [] []]; vm_compute; repeat split.
Qed.

Lemma DecodeString_EncodeToString (s : string) :
  hex.DecodeString (hex.EncodeToString s) = Some s.
Proof.
  induction s as [|v s IH]; [reflexivity|].
  destruct (digits_of_byte v) as (Hhi & Hlo & Hv).
  cbn [hex.EncodeToString hex.DecodeString].
  rewrite Hhi, Hlo, IH, Hv. reflexivity.
Qed.

(** [ObjectIdHex] panics exactly on the texts [IsObjectIdHex] refuses. *)
Lemma ObjectIdHex_panics_iff (s : string) :
  bson.ObjectIdHex s = None <-> bson.IsObjectIdHex s = false.
Proof.
  unfold bson.ObjectIdHex, bson.IsObjectIdHex.
  destruct (hex.DecodeString s) as [d|] eqn:E.
  - apply DecodeString_length in E. rewrite E.
    destruct (Nat.eqb (String.length d) 12) eqn:L.
    + apply Nat.eqb_eq in L. rewrite L. simpl. split; discriminate.
    + apply Nat.eqb_neq in L.
      assert (N : Nat.eqb (2 * String.length d) 24 = false)
        by (apply Nat.eqb_neq; lia).
      rewrite N. simpl. split; reflexivity.
  - destruct (negb (Nat.eqb (String.length s) 24)); split; reflexivity.
Qed.

Lemma IsObjectIdHex_ObjectIdHex (s : string) :
  bson.IsObjectIdHex s = true -> exists id, bson.ObjectIdHex s = Some id.
Proof.
  intro H. destruct (bson.ObjectIdHex s) as [id|] eqn:E; [eauto|].
  apply ObjectIdHex_panics_iff in E. congruence.
Qed.

Lemma IsObjectIdHex_nonempty (s : string) :
  bson.IsObjectIdHex s = true -> String.eqb s "" = false.
Proof.
  destruct s; [discriminate | reflexivity].
Qed.

Lemma NewObjectId_length (s : bson.source) :
  String.length (bson.NewObjectId s) = 12%nat.
Proof.
  unfold bson.NewObjectId. destruct (bson.machineId s) as [[m0 m1] m2]. reflexivity.
Qed.

(** The hexadecimal form of a 12-byte identifier: 24 characters, accepted
    by [IsObjectIdHex], read back by [ObjectIdHex] as the identifier. *)
Lemma Hex_of_12_bytes (id : bson.ObjectId) :
  String.length id = 12%nat ->
  String.length (bson.Hex id) = 24%nat
  /\ bson.Hex id <> ""
  /\ bson.IsObjectIdHex (bson.Hex id) = true
  /\ bson.ObjectIdHex (bson.Hex id) = Some id.
Proof.
  intro L.
  assert (L24 : String.length (bson.Hex id) = 24%nat)
    by (unfold bson.Hex; rewrite EncodeToString_length, L; reflexivity).
  assert (Hid : bson.ObjectIdHex (bson.Hex id) = Some id).
  { unfold bson.ObjectIdHex, bson.Hex.
    rewrite DecodeString_EncodeToString, L. reflexivity. }
  repeat split; try assumption.
  - intro E. rewrite E in L24. discriminate L24.
  - destruct (bson.IsObjectIdHex (bson.Hex id)) eqn:V; [reflexivity|].
    apply ObjectIdHex_panics_iff in V. congruence.
Qed.

(** ** The store: first match under an identifier *)

Lemma has_id_app (id : bson.ObjectId) (l1 l2 : mongo.Collection) :
  mongo.has_id id (l1 ++ l2) = mongo.has_id id l1 || mongo.has_id id l2.
Proof. unfold mongo.has_id. apply existsb_app. Qed.

Lemma has_id_false (id : bson.ObjectId) (c : mongo.Collection) :
  mongo.has_id id c = false <-> forall d, In d c -> m_ID d <> id.
Proof.
  unfold mongo.has_id. split.
  - intros H d Hd E.
    assert (T : existsb (fun d => String.eqb (m_ID d) id) c = true).
    { apply existsb_exists. exists d. split; [exact Hd | apply String.eqb_eq; exact E]. }
    congruence.
  - intro H. destruct (existsb _ c) eqn:E; [|reflexivity].
    apply existsb_exists in E. destruct E as (d & Hd & E).
    apply String.eqb_eq in E. elim (H d Hd E).
Qed.

(** Where the first document under an identifier sits. *)
Lemma first_match (id : bson.ObjectId) (c : mongo.Collection) :
  mongo.has_id id c = true ->
  exists l1 d l2, c = l1 ++ d :: l2 /\ m_ID d = id /\ mongo.has_id id l1 = false.
Proof.
  induction c as [|d c IH]; simpl; [discriminate|].
  destruct (String.eqb (m_ID d) id) eqn:E; simpl; intro H.
  - exists [], d, c. apply String.eqb_eq in E. repeat split; assumption.
  - destruct (IH H) as (l1 & d' & l2 & -> & Hid & Hl1).
    exists (d :: l1), d', l2. simpl. rewrite E, Hl1. repeat split; assumption.
Qed.

Lemma delete_first_no_match (id : bson.ObjectId) (c : mongo.Collection) :
  mongo.has_id id c = false -> mongo.delete_first id c = c.
Proof.
  induction c as [|d c IH]; simpl; [reflexivity|].
  destruct (String.eqb (m_ID d) id); simpl; [discriminate|].
  intro H. rewrite (IH H). reflexivity.
Qed.

Lemma delete_first_at (id : bson.ObjectId) (l1 l2 : mongo.Collection) (d : todoModel) :
  mongo.has_id id l1 = false -> m_ID d = id ->
  mongo.delete_first id (l1 ++ d :: l2) = l1 ++ l2.
Proof.
  intros H E. induction l1 as [|x l1 IH]; simpl in *.
  - apply String.eqb_eq in E. rewrite E. reflexivity.
  - destruct (String.eqb (m_ID x) id); simpl in H; [discriminate|].
    rewrite (IH H). reflexivity.
Qed.

Lemma update_first_no_match (id : bson.ObjectId) (title : string) (b : bool)
  (c : mongo.Collection) :
  mongo.has_id id c = false -> mongo.update_first id title b c = c.
Proof.
  induction c as [|d c IH]; simpl; [reflexivity|].
  destruct (String.eqb (m_ID d) id); simpl; [discriminate|].
  intro H. rewrite (IH H). reflexivity.
Qed.

Lemma update_first_at (id : bson.ObjectId) (title : string) (b : bool)
  (l1 l2 : mongo.Collection) (d : todoModel) :
  mongo.has_id id l1 = false -> m_ID d = id ->
  mongo.update_first id title b (l1 ++ d :: l2)
  = l1 ++ mongo.set_fields title b d :: l2.
Proof.
  intros H E. induction l1 as [|x l1 IH]; simpl in *.
  - apply String.eqb_eq in E. rewrite E. reflexivity.
  - destruct (String.eqb (m_ID x) id); simpl in H; [discriminate|].
    rewrite (IH H). reflexivity.
Qed.

(** The identifiers and creation times of a collection, document by
    document. *)
Lemma update_first_keeps (id : bson.ObjectId) (title : string) (b : bool)
  (c : mongo.Collection) :
  map (fun d => (m_ID d, m_CreatedAt d)) (mongo.update_first id title b c)
  = map (fun d => (m_ID d, m_CreatedAt d)) c.
Proof.
  induction c as [|d c IH]; simpl; [reflexivity|].
  destruct (String.eqb (m_ID d) id); simpl; [reflexivity | rewrite IH; reflexivity].
Qed.

Lemma delete_first_incl (id : bson.ObjectId) (c : mongo.Collection) (d : todoModel) :
  In d (mongo.delete_first id c) -> In d c.
Proof.
  induction c as [|x c IH]; simpl; [tauto|].
  destruct (String.eqb (m_ID x) id); simpl; [tauto|].
  intros [H|H]; [left; exact H | right; exact (IH H)].
Qed.

Lemma update_first_In (id : bson.ObjectId) (title : string) (b : bool)
  (c : mongo.Collection) (d' : todoModel) :
  In d' (mongo.update_first id title b c) ->
  In d' c \/ exists d, In d c /\ d' = mongo.set_fields title b d.
Proof.
  induction c as [|x c IH]; simpl; [tauto|].
  destruct (String.eqb (m_ID x) id); simpl.
  - intros [H|H]; [right; exists x; split; [left; reflexivity | symmetry; exact H]
                  | left; right; exact H].
  - intros [H|H]; [left; left; exact H|].
    destruct (IH H) as [H'|(d & Hd & E)]; [left; right; exact H'|].
    right. exists d. split; [right; exact Hd | exact E].
Qed.

Lemma delete_first_NoDup (id : bson.ObjectId) (c : mongo.Collection) :
  NoDup (map m_ID c) -> NoDup (map m_ID (mongo.delete_first id c)).
Proof.
  induction c as [|x c IH]; simpl; intro H; [exact H|].
  inversion H as [|? ? Hx Hc]; subst.
  destruct (String.eqb (m_ID x) id); [exact Hc|].
  simpl. constructor; [|exact (IH Hc)].
  intro Hin. apply Hx. apply in_map_iff in Hin. destruct Hin as (d & E & Hd).
  apply in_map_iff. exists d. split; [exact E | exact (delete_first_incl _ _ _ Hd)].
Qed.

Lemma update_first_ids (id : bson.ObjectId) (title : string) (b : bool)
  (c : mongo.Collection) :
  map m_ID (mongo.update_first id title b c) = map m_ID c.
Proof.
  induction c as [|d c IH]; simpl; [reflexivity|].
  destruct (String.eqb (m_ID d) id); simpl; [reflexivity | rewrite IH; reflexivity].
Qed.

Lemma insert_NoDup (c : mongo.Collection) (doc : todoModel) :
  mongo.has_id (m_ID doc) c = false -> NoDup (map m_ID c) ->
  NoDup (map m_ID (c ++ [doc])).
Proof.
  intros H N. rewrite map_app. simpl.
  apply NoDup_app; [exact N | repeat constructor; simpl; tauto |].
  intros x Hx [E|[]]. subst x.
  apply in_map_iff in Hx. destruct Hx as (d & E & Hd).
  exact (proj1 (has_id_false _ _) H d Hd E).
Qed.

(** ** Running the handlers *)

Ltac run_handler :=
  unfold run, todoHandlers, fetchTodos, createTodo, deleteTodo, updateTodo,
    bind, JSON, ret, panic, bson_ObjectIdHex, collection_Find,
    collection_InsertOne, collection_DeleteOne, collection_UpdateOne, call;
  cbn [collection calls app URLParam_id Body].

(** The document [createTodo] builds for a title. *)
Lemma createTodo_run (r : request) (e : env) (c : mongo.Collection)
  (f : fields) (title : string) :
  Body r = Decodable f -> f_title f = Some title -> title <> "" ->
  let tm := {| m_ID := bson.NewObjectId (id_source e); m_Title := title;
               m_Completed := false; m_CreatedAt := time_Now e |} in
  run (createTodo r e) c =
    match mongo.InsertOne c tm (writes e) with
    | (c', Some err) =>
        {| out := Responded
                    {| status := StatusProcessing;
                       content := M [("message", Str "Failed to save todo");
                                     ("error", Error err)] |};
           store := c'; trace := [CallInsertOne tm] |}
    | (c', None) =>
        {| out := Responded
                    {| status := StatusCreated;
                       content := M [("message", Str "Todo created successfully");
                                     ("todo_id", Str (bson.Hex (m_ID tm)))] |};
           store := c'; trace := [CallInsertOne tm] |}
    end.
Proof.
  intros HB HT Hne tm. run_handler. rewrite HB. unfold Decode.
  cbn [t_Title]. rewrite HT. cbn [or_keep].
  destruct (String.eqb title "") eqn:E; [apply String.eqb_eq in E; contradiction|].
  cbn [collection calls app]. fold tm.
  destruct (mongo.InsertOne c tm (writes e)) as [c' [err|]]; reflexivity.
Qed.


Lemma fetch_loop_all (c : mongo.Collection) (l : list todoModel) :
  fetch_loop (map inr c) (elems l) = inr (elems (l ++ c)).
Proof.
  revert l. induction c as [|d c IH]; intro l; simpl.
  - rewrite app_nil_r. reflexivity.
  - unfold append. cbn [items]. rewrite IH, <- app_assoc. reflexivity.
Qed.

Lemma todoList_all (c : list todoModel) (l : list todo) :
  fold_left (fun acc t => append acc (as_todo t)) c (elems l)
  = elems (l ++ map as_todo c).
Proof.
  revert l. induction c as [|d c IH]; intro l; simpl.
  - rewrite app_nil_r. reflexivity.
  - unfold append at 2. cbn [items]. rewrite IH, <- app_assoc. reflexivity.
Qed.

(** With no fault of the store, [fetchTodos] lists every document, in
    order. *)
Lemma fetchTodos_run (e : env) (c : mongo.Collection) :
  reads e = mongo.NoReadFault ->
  run (fetchTodos e) c =
    {| out := Responded {| status := StatusOK;
                           content := M [("data", Todos (elems (map as_todo c)))] |};
       store := c; trace := [CallFind] |}.
Proof.
  intro H. run_handler. rewrite H. cbn [mongo.Find mongo.documents mongo.Err].
  rewrite fetch_loop_all. cbn [app items]. rewrite todoList_all. reflexivity.
Qed.

(** ** The claims *)

(** C1, as amended. For every create request whose body decodes and has a
    non-empty title, and whose storage insert reports no error, the handler
    inserts exactly one document, with the given title, completed false
    whatever the body said and createdAt the time of the insertion; it
    responds 201 with [todo_id] the hexadecimal form of the generated
    identifier, 24 characters long; and a later list contains the item under
    that identifier. *)
Theorem createTodo_created (r : request) (e : env) (c : mongo.Collection)
  (f : fields) (title : string) :
  Body r = Decodable f -> f_title f = Some title -> title <> "" ->
  let tm := {| m_ID := bson.NewObjectId (id_source e); m_Title := title;
               m_Completed := false; m_CreatedAt := time_Now e |} in
  snd (mongo.InsertOne c tm (writes e)) = None ->
  run (createTodo r e) c =
    {| out := Responded
                {| status := StatusCreated;
                   content := M [("message", Str "Todo created successfully");
                                 ("todo_id", Str (bson.Hex (m_ID tm)))] |};
       store := c ++ [tm];
       trace := [CallInsertOne tm] |}
  /\ String.length (bson.Hex (m_ID tm)) = 24%nat
  /\ bson.Hex (m_ID tm) <> ""
  /\ forall e', reads e' = mongo.NoReadFault ->
       exists l,
         out (run (fetchTodos e') (c ++ [tm])) =
           Responded {| status := StatusOK; content := M [("data", Todos (elems l))] |}
         /\ In {| t_ID := bson.Hex (m_ID tm); t_Title := title;
                  t_Completed := false; t_CreatedAt := time_Now e |} l.
Proof.
  intros HB HT Hne tm Hins.
  pose proof (Hex_of_12_bytes (m_ID tm) (NewObjectId_length (id_source e)))
    as (L24 & Hnon & _ & _).
  split; [|split; [exact L24|split; [exact Hnon|]]].
  - rewrite (createTodo_run r e c f title HB HT Hne). fold tm.
    revert Hins. unfold mongo.InsertOne.
    destruct (writes e) as [|err|err]; destruct (mongo.has_id (m_ID tm) c);
      cbn [snd]; intro Hins; try discriminate Hins. reflexivity.
  - intros e' He'. exists (map as_todo (c ++ [tm])).
    rewrite (fetchTodos_run e' _ He'). split; [reflexivity|].
    rewrite map_app. apply in_or_app. right. left. reflexivity.
Qed.

Lemma createTodo_created_witness :
  run (createTodo (sample.with_body "" (Some "buy milk") (Some true)) sample.calm) [] =
    {| out := Responded
                {| status := StatusCreated;
                   content := M [("message", Str "Todo created successfully");
                                 ("todo_id", Str sample.milk_hex)] |};
       store := [{| m_ID := sample.milk_id; m_Title := "buy milk";
                    m_Completed := false; m_CreatedAt := 1000 |}];
       trace := [CallInsertOne {| m_ID := sample.milk_id; m_Title := "buy milk";
                                  m_Completed := false; m_CreatedAt := 1000 |}] |}.
Proof.
  refine (proj1 (createTodo_created
                   (sample.with_body "" (Some "buy milk") (Some true)) sample.calm []
                   {| f_id := None; f_title := Some "buy milk";
                      f_completed := Some true; f_createdAt := None |}
                   "buy milk" eq_refl eq_refl _ eq_refl)).
  discriminate.
Defined.

(** C1 as stated fails when the store refuses the insert: the body decodes
    and has a title, yet the response is 102 and nothing is inserted. *)
Lemma createTodo_store_refuses :
  Body (sample.with_body "" (Some "buy milk") None)
  = Decodable {| f_id := None; f_title := Some "buy milk";
                 f_completed := None; f_createdAt := None |}
  /\ "buy milk" <> ""
  /\ run (createTodo (sample.with_body "" (Some "buy milk") None) sample.down) [] =
       {| out := Responded
                   {| status := StatusProcessing;
                      content := M [("message", Str "Failed to save todo");
                                    ("error", Error (DriverError "server selection error"))] |};
          store := [];
          trace := [CallInsertOne {| m_ID := sample.milk_id; m_Title := "buy milk";
                                     m_Completed := false; m_CreatedAt := 1000 |}] |}
  /\ StatusProcessing <> StatusCreated.
Proof.
  repeat split; discriminate.
Qed.

(** C8, as amended. For every create request whose body the decoder accepts
    (it returns no error) but whose title is missing or the empty string,
    the handler responds 400 with a [message] field, makes no storage call
    and leaves the collection as it was. *)
Theorem createTodo_title_required (r : request) (e : env) (c : mongo.Collection)
  (f : fields) :
  Body r = Decodable f -> f_title f = None \/ f_title f = Some "" ->
  run (createTodo r e) c =
    {| out := Responded {| status := StatusBadRequest;
                           content := M [("message", Str "The title is required")] |};
       store := c; trace := [] |}
  /\ has_field "message" (marshal (M [("message", Str "The title is required")])) = true.
Proof.
  intros HB HT. split; [|reflexivity].
  run_handler. rewrite HB. unfold Decode. cbn [t_Title zero_todo].
  destruct HT as [HT|HT]; rewrite HT; reflexivity.
Qed.

Lemma createTodo_title_required_witness :
  run (createTodo (sample.with_body "" None (Some true)) sample.calm) [sample.milk] =
    {| out := Responded {| status := StatusBadRequest;
                           content := M [("message", Str "The title is required")] |};
       store := [sample.milk]; trace := [] |}.
Proof.
  exact (proj1 (createTodo_title_required
                  (sample.with_body "" None (Some true)) sample.calm [sample.milk]
                  {| f_id := None; f_title := None;
                     f_completed := Some true; f_createdAt := None |}
                  eq_refl (or_introl eq_refl))).
Defined.

(** C8 as stated fails on a body that is well-formed JSON without a title
    but that the decoder refuses: for [{"completed":"yes"}] it returns a
    [*json.UnmarshalTypeError] (a string where the [completed] field of
    [todo] wants a bool), and the handler answers 102 with that bare error,
    which has no [message] member, not 400. *)
Lemma createTodo_refused_json_without_title :
  run (createTodo
         {| URLParam_id := "";
            Body := Undecodable (UnmarshalTypeError "string" 18 "todo" "completed") |}
         sample.calm) []
  = {| out := Responded
                {| status := StatusProcessing;
                   content := Bare (UnmarshalTypeError "string" 18 "todo" "completed") |};
       store := []; trace := [] |}
  /\ StatusProcessing <> StatusBadRequest
  /\ has_field "message"
       (marshal (Bare (UnmarshalTypeError "string" 18 "todo" "completed"))) = false.
Proof.
  repeat split; discriminate.
Qed.

(** C9. For every list request over the empty collection that meets no
    storage error, the handler responds 200 with a body whose [data] member
    is the empty array: the slice rendered is the empty slice, not the nil
    slice, so the member is neither [null] nor left out. *)
Theorem fetchTodos_empty (e : env) :
  reads e = mongo.NoReadFault \/ (exists n err, reads e = mongo.DecodeFails n err) ->
  exists resp,
    run (fetchTodos e) [] = {| out := Responded resp; store := []; trace := [CallFind] |}
    /\ status resp = StatusOK
    /\ content resp = M [("data", Todos (elems []))]
    /\ marshal (content resp) = Some (JObj [("data", JArr [])]).
Proof.
  intro H.
  exists {| status := StatusOK; content := M [("data", Todos (elems []))] |}.
  repeat split. run_handler.
  destruct H as [H|(n & err & H)]; rewrite H;
    cbn [mongo.Find mongo.documents mongo.Err]; [reflexivity|].
  destruct n; reflexivity.
Qed.

Lemma fetchTodos_empty_witness :
  exists resp,
    run (fetchTodos sample.calm) []
    = {| out := Responded resp; store := []; trace := [CallFind] |}
    /\ status resp = StatusOK
    /\ content resp = M [("data", Todos (elems []))]
    /\ marshal (content resp) = Some (JObj [("data", JArr [])]).
Proof.
  exact (fetchTodos_empty sample.calm (or_introl eq_refl)).
Defined.

(** What [deleteTodo] does under a well-formed identifier. *)
Lemma deleteTodo_run (r : request) (e : env) (c : mongo.Collection)
  (id : bson.ObjectId) :
  bson.ObjectIdHex (URLParam_id r) = Some id ->
  run (deleteTodo r e) c =
    match mongo.DeleteOne c id (writes e) with
    | (c', Some err) =>
        {| out := Responded
                    {| status := StatusProcessing;
                       content := M [("message", Str "Failed to delete todo");
                                     ("error", Error err)] |};
           store := c'; trace := [CallDeleteOne id] |}
    | (c', None) =>
        {| out := Responded
                    {| status := StatusOK;
                       content := M [("message", Str "Todo deleted successfully")] |};
           store := c'; trace := [CallDeleteOne id] |}
    end.
Proof.
  intro Hid. run_handler.
  assert (V : bson.IsObjectIdHex (URLParam_id r) = true).
  { destruct (bson.IsObjectIdHex (URLParam_id r)) eqn:V; [reflexivity|].
    apply ObjectIdHex_panics_iff in V. congruence. }
  rewrite V, Hid. unfold ret. cbn [negb collection calls app].
  destruct (mongo.DeleteOne c id (writes e)) as [c' [err|]]; reflexivity.
Qed.

(** C6, as amended. A delete request under a malformed identifier is
    answered 400 with a message, with no storage call and the collection
    unchanged. Under a well-formed identifier the handler removes at most
    one document, the first stored under that identifier; when the storage
    delete reports no error the response is the same 200 whether or not a
    document was stored under the identifier. *)
Theorem deleteTodo_effect (r : request) (e : env) (c : mongo.Collection) :
  (bson.IsObjectIdHex (URLParam_id r) = false ->
     run (deleteTodo r e) c =
       {| out := Responded {| status := StatusBadRequest;
                              content := M [("message", Str "Invalid todo ID")] |};
          store := c; trace := [] |})
  /\ (bson.IsObjectIdHex (URLParam_id r) = true ->
        exists id, bson.ObjectIdHex (URLParam_id r) = Some id
        /\ trace (run (deleteTodo r e) c) = [CallDeleteOne id]
        /\ (store (run (deleteTodo r e) c) = c
            \/ exists l1 d l2,
                 c = l1 ++ d :: l2 /\ m_ID d = id /\ mongo.has_id id l1 = false
                 /\ store (run (deleteTodo r e) c) = l1 ++ l2)
        /\ (snd (mongo.DeleteOne c id (writes e)) = None ->
              out (run (deleteTodo r e) c) =
                Responded {| status := StatusOK;
                             content := M [("message", Str "Todo deleted successfully")] |}
              /\ store (run (deleteTodo r e) c) = mongo.delete_first id c
              /\ (mongo.has_id id c = false -> store (run (deleteTodo r e) c) = c))).
Proof.
  split.
  - intro V. run_handler. rewrite V. reflexivity.
  - intro V. destruct (IsObjectIdHex_ObjectIdHex _ V) as (id & Hid).
    exists id. split; [exact Hid|].
    rewrite (deleteTodo_run r e c id Hid).
    assert (D : mongo.delete_first id c = c
                \/ exists l1 d l2,
                     c = l1 ++ d :: l2 /\ m_ID d = id /\ mongo.has_id id l1 = false
                     /\ mongo.delete_first id c = l1 ++ l2).
    { destruct (mongo.has_id id c) eqn:Hc.
      - right. destruct (first_match id c Hc) as (l1 & d & l2 & -> & Ed & Hl1).
        exists l1, d, l2. repeat split; try assumption.
        apply delete_first_at; assumption.
      - left. apply delete_first_no_match; exact Hc. }
    unfold mongo.DeleteOne.
    destruct (writes e) as [|err|err]; cbn [store trace out snd];
      (split; [reflexivity|]); (split; [first [exact D | left; reflexivity]|]);
      intro N; try discriminate N.
    repeat split. intro Hc. apply delete_first_no_match; exact Hc.
Qed.

Lemma deleteTodo_effect_witness :
  run (deleteTodo (sample.with_body "abc" None None) sample.calm) [sample.milk] =
    {| out := Responded {| status := StatusBadRequest;
                           content := M [("message", Str "Invalid todo ID")] |};
       store := [sample.milk]; trace := [] |}.
Proof.
  exact (proj1 (deleteTodo_effect (sample.with_body "abc" None None) sample.calm
                  [sample.milk]) eq_refl).
Defined.

(** C6 as stated fails when the store refuses the delete: the identifier is
    well formed, yet the response is 102, not 200. *)
Lemma deleteTodo_store_refuses :
  bson.IsObjectIdHex sample.milk_hex = true
  /\ run (deleteTodo (sample.with_body sample.milk_hex None None) sample.down)
         [sample.milk] =
       {| out := Responded
                   {| status := StatusProcessing;
                      content := M [("message", Str "Failed to delete todo");
                                    ("error", Error (DriverError "server selection error"))] |};
          store := [sample.milk];
          trace := [CallDeleteOne sample.milk_id] |}
  /\ StatusProcessing <> StatusOK.
Proof.
  repeat split; discriminate.
Qed.

(** ** The update handler, case by case *)

(** What [Decode] leaves in the title and completed fields of a fresh
    [todo]. *)
Lemma Decode_fresh (f : fields) :
  Decode (Decodable f) zero_todo =
    (None, {| t_ID := or_keep (f_id f) ""; t_Title := or_keep (f_title f) "";
              t_Completed := or_keep (f_completed f) false;
              t_CreatedAt := or_keep (f_createdAt f) 0 |}).
Proof. reflexivity. Qed.

Lemma or_keep_title (f : fields) :
  String.eqb (or_keep (f_title f) "") "" = false ->
  f_title f = Some (or_keep (f_title f) "") /\ or_keep (f_title f) "" <> "".
Proof.
  intro H. split; [|apply String.eqb_neq; exact H].
  destruct (f_title f); [reflexivity | discriminate H].
Qed.

Lemma ObjectIdHex_nonempty (s : string) (id : bson.ObjectId) :
  bson.ObjectIdHex s = Some id -> String.eqb s "" = false.
Proof. destruct s; [discriminate | reflexivity]. Qed.

(** Past its checks, [updateTodo] makes one [UpdateOne] call and answers by
    its error. *)
Lemma updateTodo_run (r : request) (e : env) (c : mongo.Collection)
  (f : fields) (id : bson.ObjectId) :
  Body r = Decodable f ->
  String.eqb (or_keep (f_title f) "") "" = false ->
  bson.ObjectIdHex (URLParam_id r) = Some id ->
  let title := or_keep (f_title f) "" in
  let completed := or_keep (f_completed f) false in
  run (updateTodo r e) c =
    match mongo.UpdateOne c id title completed (writes e) with
    | (c', Some err) =>
        {| out := Responded
                    {| status := StatusProcessing;
                       content := M [("message", Str "Failed to update todo");
                                     ("error", Error err)] |};
           store := c'; trace := [CallUpdateOne id title completed] |}
    | (c', None) =>
        {| out := Responded
                    {| status := StatusOK;
                       content := M [("message", Str "Todo successfully updated")] |};
           store := c'; trace := [CallUpdateOne id title completed] |}
    end.
Proof.
  intros HB HT Hid title completed. run_handler.
  rewrite (ObjectIdHex_nonempty _ _ Hid), HB, Decode_fresh.
  cbn [t_Title t_Completed]. rewrite HT, Hid. unfold ret.
  cbn [collection calls app]. fold title completed.
  destruct (mongo.UpdateOne c id title completed (writes e)) as [c' [err|]]; reflexivity.
Qed.

(** Before that call, [updateTodo] leaves the store alone: it answers 400
    or 102, or panics in [bson.ObjectIdHex]. *)
Lemma updateTodo_stops (r : request) (e : env) (c : mongo.Collection) :
  (URLParam_id r = "" /\
     run (updateTodo r e) c =
       {| out := Responded {| status := StatusBadRequest;
                              content := M [("message", Str "The todo ID is required")] |};
          store := c; trace := [] |})
  \/ (exists err, Body r = Undecodable err /\
        run (updateTodo r e) c =
          {| out := Responded {| status := StatusProcessing; content := Bare err |};
             store := c; trace := [] |})
  \/ (exists f, Body r = Decodable f /\ or_keep (f_title f) "" = "" /\
        run (updateTodo r e) c =
          {| out := Responded {| status := StatusBadRequest;
                                 content := M [("message", Str "The title is required")] |};
             store := c; trace := [] |})
  \/ (bson.ObjectIdHex (URLParam_id r) = None /\
        run (updateTodo r e) c =
          {| out := Panicked (URLParam_id r); store := c; trace := [] |})
  \/ (exists f id, Body r = Decodable f
        /\ String.eqb (or_keep (f_title f) "") "" = false
        /\ bson.ObjectIdHex (URLParam_id r) = Some id).
Proof.
  destruct (String.eqb (URLParam_id r) "") eqn:E0.
  { left. apply String.eqb_eq in E0. split; [exact E0|].
    run_handler. rewrite E0. reflexivity. }
  right. destruct (Body r) as [err|f] eqn:HB.
  { left. exists err. split; [reflexivity|]. run_handler. rewrite E0, HB. reflexivity. }
  right. destruct (String.eqb (or_keep (f_title f) "") "") eqn:ET.
  { left. exists f. split; [reflexivity|]. split; [apply String.eqb_eq; exact ET|].
    run_handler. rewrite E0, HB, Decode_fresh. cbn [t_Title]. rewrite ET. reflexivity. }
  right. destruct (bson.ObjectIdHex (URLParam_id r)) as [id|] eqn:Hid.
  { right. exists f, id. repeat split; assumption. }
  left. split; [reflexivity|].
  run_handler. rewrite E0, HB, Decode_fresh. cbn [t_Title]. rewrite ET, Hid. reflexivity.
Qed.

(** C4. For every update request answered 200, the handler made one
    [UpdateOne] call under the identifier of the path; either no document
    is stored under it and the collection is unchanged, or the collection
    differs in the first such document only, which keeps its identifier and
    createdAt and takes the title and completed of the body. *)
Theorem updateTodo_frame (r : request) (e : env) (c : mongo.Collection)
  (resp : response) :
  out (run (updateTodo r e) c) = Responded resp -> status resp = StatusOK ->
  exists f id title completed,
    Body r = Decodable f
    /\ title = or_keep (f_title f) "" /\ completed = or_keep (f_completed f) false
    /\ bson.ObjectIdHex (URLParam_id r) = Some id
    /\ trace (run (updateTodo r e) c) = [CallUpdateOne id title completed]
    /\ ((mongo.has_id id c = false /\ store (run (updateTodo r e) c) = c)
        \/ exists l1 d l2,
             c = l1 ++ d :: l2 /\ m_ID d = id /\ mongo.has_id id l1 = false
             /\ store (run (updateTodo r e) c)
                = l1 ++ {| m_ID := m_ID d; m_Title := title;
                           m_Completed := completed;
                           m_CreatedAt := m_CreatedAt d |} :: l2).
Proof.
  intros Hout Hst.
  destruct (updateTodo_stops r e c)
    as [(_ & R)|[(err & _ & R)|[(f & _ & _ & R)|[(_ & R)|(f & id & HB & HT & Hid)]]]];
    try (rewrite R in Hout; cbn [out] in Hout; inversion Hout; subst resp;
         discriminate Hst).
  exists f, id, (or_keep (f_title f) ""), (or_keep (f_completed f) false).
  rewrite (updateTodo_run r e c f id HB HT Hid) in *.
  unfold mongo.UpdateOne in *.
  destruct (writes e) as [|err|err]; cbn [out store trace] in *;
    try (inversion Hout; subst resp; discriminate Hst).
  repeat split; try assumption.
  destruct (mongo.has_id id c) eqn:Hc.
  - right. destruct (first_match id c Hc) as (l1 & d & l2 & -> & Ed & Hl1).
    exists l1, d, l2. repeat split; try assumption.
    apply update_first_at; assumption.
  - left. split; [reflexivity | apply update_first_no_match; exact Hc].
Qed.

Lemma updateTodo_frame_witness :
  exists f id title completed,
    Body (sample.with_body sample.milk_hex (Some "buy oat milk") (Some false))
    = Decodable f
    /\ title = or_keep (f_title f) "" /\ completed = or_keep (f_completed f) false
    /\ bson.ObjectIdHex sample.milk_hex = Some id
    /\ trace (run (updateTodo
                     (sample.with_body sample.milk_hex (Some "buy oat milk") (Some false))
                     sample.calm) [sample.milk])
       = [CallUpdateOne id title completed]
    /\ ((mongo.has_id id [sample.milk] = false
         /\ store (run (updateTodo
                          (sample.with_body sample.milk_hex (Some "buy oat milk")
                             (Some false))
                          sample.calm) [sample.milk]) = [sample.milk])
        \/ exists l1 d l2,
             [sample.milk] = l1 ++ d :: l2 /\ m_ID d = id
             /\ mongo.has_id id l1 = false
             /\ store (run (updateTodo
                              (sample.with_body sample.milk_hex (Some "buy oat milk")
                                 (Some false))
                              sample.calm) [sample.milk])
                = l1 ++ {| m_ID := m_ID d; m_Title := title;
                           m_Completed := completed;
                           m_CreatedAt := m_CreatedAt d |} :: l2).
Proof.
  exact (updateTodo_frame
           (sample.with_body sample.milk_hex (Some "buy oat milk") (Some false))
           sample.calm [sample.milk]
           {| status := StatusOK;
              content := M [("message", Str "Todo successfully updated")] |}
           eq_refl eq_refl).
Defined.



(** C10, as amended. For every update request whose body the decoder
    accepts and that omits [completed], the handler behaves as for the same
    request with [completed] false: every [UpdateOne] call it makes sets
    completed to false, and when it answers 200 the first document stored
    under the identifier ends with completed false, whatever it was
    before. *)
Theorem updateTodo_completed_omitted (r : request) (e : env) (c : mongo.Collection)
  (f : fields) :
  Body r = Decodable f -> f_completed f = None ->
  run (updateTodo r e) c
  = run (updateTodo {| URLParam_id := URLParam_id r;
                       Body := Decodable {| f_id := f_id f; f_title := f_title f;
                                            f_completed := Some false;
                                            f_createdAt := f_createdAt f |} |} e) c
  /\ (forall id title b,
        In (CallUpdateOne id title b) (trace (run (updateTodo r e) c)) -> b = false)
  /\ (forall resp,
        out (run (updateTodo r e) c) = Responded resp -> status resp = StatusOK ->
        exists id title,
          bson.ObjectIdHex (URLParam_id r) = Some id /\ f_title f = Some title
          /\ forall l1 d l2,
               c = l1 ++ d :: l2 -> m_ID d = id -> mongo.has_id id l1 = false ->
               store (run (updateTodo r e) c)
               = l1 ++ {| m_ID := m_ID d; m_Title := title; m_Completed := false;
                          m_CreatedAt := m_CreatedAt d |} :: l2).
Proof.
  intros HB HC. split; [|split].
  - unfold updateTodo. cbn [URLParam_id Body]. rewrite HB, !Decode_fresh.
    cbn [f_id f_title f_completed f_createdAt]. rewrite HC. reflexivity.
  - intros id title b Hin.
    destruct (updateTodo_stops r e c)
      as [(_ & R)|[(err & _ & R)|[(f' & _ & _ & R)|[(_ & R)|(f' & id' & HB' & HT & Hid)]]]];
      try (rewrite R in Hin; cbn [trace] in Hin; contradiction).
    rewrite HB in HB'. inversion HB'; subst f'.
    rewrite (updateTodo_run r e c f id' HB HT Hid) in Hin.
    rewrite HC in Hin. cbn [or_keep] in Hin.
    destruct (mongo.UpdateOne c id' (or_keep (f_title f) "") false (writes e))
      as [c' [err|]]; cbn [trace] in Hin;
      destruct Hin as [Hin|[]]; inversion Hin; reflexivity.
  - intros resp Hout Hst.
    destruct (updateTodo_stops r e c)
      as [(_ & R)|[(err & _ & R)|[(f' & _ & _ & R)|[(_ & R)|(f' & id & HB' & HT & Hid)]]]];
      try (rewrite R in Hout; cbn [out] in Hout; inversion Hout; subst resp;
           discriminate Hst).
    rewrite HB in HB'. inversion HB'; subst f'.
    destruct (or_keep_title f HT) as (HT' & _).
    exists id, (or_keep (f_title f) ""). split; [exact Hid|]. split; [exact HT'|].
    intros l1 d l2 Ec Ed Hl1.
    rewrite (updateTodo_run r e c f id HB HT Hid) in *.
    rewrite HC in *. cbn [or_keep] in *. unfold mongo.UpdateOne in *.
    destruct (writes e) as [|err|err]; cbn [out store] in *;
      try (inversion Hout; subst resp; discriminate Hst).
    rewrite Ec. exact (update_first_at id _ false l1 l2 d Hl1 Ed).
Qed.

(** An update that supplies only a title resets a completed item. *)
Lemma updateTodo_completed_omitted_witness :
  run (updateTodo (sample.with_body sample.milk_hex (Some "buy oat milk") None)
         sample.calm) [sample.milk]
  = run (updateTodo (sample.with_body sample.milk_hex (Some "buy oat milk") (Some false))
           sample.calm) [sample.milk]
  /\ store (run (updateTodo (sample.with_body sample.milk_hex (Some "buy oat milk") None)
                   sample.calm) [sample.milk])
     = [{| m_ID := sample.milk_id; m_Title := "buy oat milk"; m_Completed := false;
           m_CreatedAt := 1000 |}].
Proof.
  pose proof (updateTodo_completed_omitted
                (sample.with_body sample.milk_hex (Some "buy oat milk") None)
                sample.calm [sample.milk]
                {| f_id := None; f_title := Some "buy oat milk";
                   f_completed := None; f_createdAt := None |}
                eq_refl eq_refl) as (Hsame & _ & _).
  split; [exact Hsame | reflexivity].
Defined.

(** C10 as stated fails when the store refuses the update: the body omits
    [completed] and a completed item is stored under the identifier, yet
    the answer is 102 and the item stays completed. *)
Lemma updateTodo_completed_omitted_store_refuses :
  Body (sample.with_body sample.milk_hex (Some "buy oat milk") None)
  = Decodable {| f_id := None; f_title := Some "buy oat milk";
                 f_completed := None; f_createdAt := None |}
  /\ bson.ObjectIdHex sample.milk_hex = Some (m_ID sample.milk)
  /\ m_Completed sample.milk = true
  /\ run (updateTodo (sample.with_body sample.milk_hex (Some "buy oat milk") None)
            sample.down) [sample.milk]
     = {| out := Responded
                   {| status := StatusProcessing;
                      content := M [("message", Str "Failed to update todo");
                                    ("error", Error (DriverError "server selection error"))] |};
          store := [sample.milk];
          trace := [CallUpdateOne sample.milk_id "buy oat milk" false] |}.
Proof.
  repeat split.
Qed.

(** ** What one request can do to the collection *)

Lemma fetchTodos_store (e : env) (c : mongo.Collection) :
  store (run (fetchTodos e) c) = c.
Proof.
  run_handler. destruct (mongo.Find c (reads e)) as [err|fetch]; [reflexivity|].
  destruct (fetch_loop (mongo.documents fetch) (elems [])) as [err|todos];
    [reflexivity|].
  destruct (mongo.Err fetch); reflexivity.
Qed.

Lemma createTodo_store (r : request) (e : env) (c : mongo.Collection) :
  store (run (createTodo r e) c) = c
  \/ exists title,
       title <> "" /\ mongo.has_id (bson.NewObjectId (id_source e)) c = false
       /\ store (run (createTodo r e) c)
          = c ++ [{| m_ID := bson.NewObjectId (id_source e); m_Title := title;
                     m_Completed := false; m_CreatedAt := time_Now e |}].
Proof.
  destruct (Body r) as [err|f] eqn:HB.
  { left. run_handler. rewrite HB. reflexivity. }
  destruct (String.eqb (or_keep (f_title f) "") "") eqn:ET.
  { left. run_handler. rewrite HB, Decode_fresh. cbn [t_Title]. rewrite ET. reflexivity. }
  destruct (or_keep_title f ET) as (HT & Hne).
  rewrite (createTodo_run r e c f _ HB HT Hne).
  unfold mongo.InsertOne. cbn [m_ID].
  destruct (writes e) as [|err|err];
    destruct (mongo.has_id (bson.NewObjectId (id_source e)) c) eqn:Hc;
    cbn [store]; try (left; reflexivity);
    right; exists (or_keep (f_title f) ""); repeat split; assumption.
Qed.

Lemma deleteTodo_store (r : request) (e : env) (c : mongo.Collection) :
  store (run (deleteTodo r e) c) = c
  \/ exists id, store (run (deleteTodo r e) c) = mongo.delete_first id c.
Proof.
  destruct (bson.IsObjectIdHex (URLParam_id r)) eqn:V.
  - destruct (IsObjectIdHex_ObjectIdHex _ V) as (id & Hid).
    rewrite (deleteTodo_run r e c id Hid). unfold mongo.DeleteOne.
    destruct (writes e) as [|err|err]; cbn [store];
      first [left; reflexivity | right; exists id; reflexivity].
  - left. run_handler. rewrite V. reflexivity.
Qed.

Lemma updateTodo_store (r : request) (e : env) (c : mongo.Collection) :
  store (run (updateTodo r e) c) = c
  \/ exists id title b,
       title <> "" /\ store (run (updateTodo r e) c) = mongo.update_first id title b c.
Proof.
  destruct (updateTodo_stops r e c)
    as [(_ & R)|[(err & _ & R)|[(f & _ & _ & R)|[(_ & R)|(f & id & HB & HT & Hid)]]]];
    try (left; rewrite R; reflexivity).
  rewrite (updateTodo_run r e c f id HB HT Hid). unfold mongo.UpdateOne.
  destruct (or_keep_title f HT) as (_ & Hne).
  destruct (writes e) as [|err|err]; cbn [store]; try (left; reflexivity);
    right; exists id, (or_keep (f_title f) ""), (or_keep (f_completed f) false);
    split; [exact Hne | reflexivity | exact Hne | reflexivity].
Qed.

(** A malformed identifier never reaches the store through [updateTodo],
    and is never answered 200. *)
Lemma updateTodo_malformed_id (r : request) (e : env) (c : mongo.Collection) :
  bson.IsObjectIdHex (URLParam_id r) = false ->
  store (run (updateTodo r e) c) = c
  /\ trace (run (updateTodo r e) c) = []
  /\ (out (run (updateTodo r e) c) = Panicked (URLParam_id r)
      \/ exists resp, out (run (updateTodo r e) c) = Responded resp
                      /\ (status resp = StatusBadRequest \/ status resp = StatusProcessing)).
Proof.
  intro V. apply ObjectIdHex_panics_iff in V.
  destruct (updateTodo_stops r e c)
    as [(_ & R)|[(err & _ & R)|[(f & _ & _ & R)|[(_ & R)|(f & id & _ & _ & Hid)]]]];
    try congruence; rewrite R; cbn [store trace out]; repeat split;
    first [left; reflexivity | right; eexists; split; [reflexivity|]; cbn [status]; tauto].
Qed.

(** C2 at a malformed identifier: [updateTodo] has no check of the
    identifier and panics inside [bson.ObjectIdHex], which the recovery
    middleware turns into a 500 without JSON, where [deleteTodo] checks
    [bson.IsObjectIdHex] and answers 400 with a message. *)
Theorem updateTodo_malformed_id_panics :
  bson.IsObjectIdHex "abc" = false
  /\ run (updateTodo (sample.with_body "abc" (Some "buy oat milk") None) sample.calm)
         [sample.milk]
     = {| out := Panicked "abc"; store := [sample.milk]; trace := [] |}
  /\ serve PUT_todo_id (sample.with_body "abc" (Some "buy oat milk") None) sample.calm
       [sample.milk]
     = ({| status := StatusInternalServerError; content := NoJSON |}, [sample.milk])
  /\ serve DELETE_todo_id (sample.with_body "abc" (Some "buy oat milk") None) sample.calm
       [sample.milk]
     = ({| status := StatusBadRequest; content := M [("message", Str "Invalid todo ID")] |},
        [sample.milk]).
Proof.
  repeat split.
Qed.

(** C7 at a body that is not JSON: [createTodo] and [updateTodo] hand the
    error value of the decoder itself to the renderer, and its JSON text
    has no [message] member, where every other error branch renders a
    [renderer.M] with one. *)
Theorem decode_error_rendered_without_message :
  run (createTodo sample.garbled sample.calm) []
  = {| out := Responded
                {| status := StatusProcessing;
                   content := Bare (SyntaxError
                     "invalid character 'x' looking for beginning of value" 1) |};
       store := []; trace := [] |}
  /\ run (updateTodo sample.garbled sample.calm) []
     = run (createTodo sample.garbled sample.calm) []
  /\ marshal (Bare (SyntaxError "invalid character 'x' looking for beginning of value" 1))
     = Some (JObj [("Offset", JNum 1)])
  /\ has_field "message"
       (marshal (Bare (SyntaxError
                         "invalid character 'x' looking for beginning of value" 1)))
     = false.
Proof.
  repeat split.
Qed.

(** Every response a handler renders is a [renderer.M] with a [message]
    member (or the [data] of a list), except where the body did not decode:
    there the bare error value is rendered. *)
Lemma rendered_payloads (rt : route) (r : request) (e : env) (c : mongo.Collection)
  (resp : response) :
  out (run (todoHandlers rt r e) c) = Responded resp ->
  (status resp = StatusOK /\ rt = GET_todo /\ has_field "data" (marshal (content resp)) = true)
  \/ has_field "message" (marshal (content resp)) = true
  \/ (exists err, Body r = Undecodable err /\ (rt = POST_todo \/ rt = PUT_todo_id)
                  /\ status resp = StatusProcessing /\ content resp = Bare err).
Proof.
  destruct rt; cbn [todoHandlers]; intro H.
  - revert H. run_handler.
    destruct (mongo.Find c (reads e)) as [err|fetch];
      [intro H; inversion H; right; left; reflexivity|].
    destruct (fetch_loop (mongo.documents fetch) (elems [])) as [err|todos];
      [intro H; inversion H; right; left; reflexivity|].
    destruct (mongo.Err fetch); intro H; inversion H;
      [right; left; reflexivity | left; repeat split].
  - destruct (Body r) as [err|f] eqn:HB.
    { revert H. run_handler. rewrite HB. intro H. inversion H.
      right; right. exists err. cbn. tauto. }
    destruct (String.eqb (or_keep (f_title f) "") "") eqn:ET.
    { revert H. run_handler. rewrite HB, Decode_fresh. cbn [t_Title]. rewrite ET.
      intro H. inversion H. right; left; reflexivity. }
    destruct (or_keep_title f ET) as (HT & Hne).
    rewrite (createTodo_run r e c f _ HB HT Hne) in H.
    destruct (mongo.InsertOne c _ (writes e)) as [c' [err|]];
      inversion H; right; left; reflexivity.
  - destruct (updateTodo_stops r e c)
      as [(_ & R)|[(err & HB & R)|[(f & _ & _ & R)|[(_ & R)|(f & id & HB & HT & Hid)]]]];
      try (rewrite R in H; inversion H; right; left; reflexivity).
    + rewrite R in H. inversion H. right; right. exists err. cbn. tauto.
    + rewrite (updateTodo_run r e c f id HB HT Hid) in H.
      destruct (mongo.UpdateOne c id _ _ (writes e)) as [c' [err|]];
        inversion H; right; left; reflexivity.
  - destruct (bson.IsObjectIdHex (URLParam_id r)) eqn:V.
    + destruct (IsObjectIdHex_ObjectIdHex _ V) as (id & Hid).
      rewrite (deleteTodo_run r e c id Hid) in H.
      destruct (mongo.DeleteOne c id (writes e)) as [c' [err|]];
        inversion H; right; left; reflexivity.
    + revert H. run_handler. rewrite V. intro H. inversion H. right; left; reflexivity.
Qed.

(** The collection after one request: as before, one document longer,
    one document shorter, or with one document's title and completed
    rewritten. *)
Lemma serve_store (rt : route) (r : request) (e : env) (c : mongo.Collection) :
  snd (serve rt r e c) = c
  \/ (rt = POST_todo /\ exists title,
        title <> "" /\ mongo.has_id (bson.NewObjectId (id_source e)) c = false
        /\ snd (serve rt r e c)
           = c ++ [{| m_ID := bson.NewObjectId (id_source e); m_Title := title;
                      m_Completed := false; m_CreatedAt := time_Now e |}])
  \/ (rt = DELETE_todo_id /\ exists id, snd (serve rt r e c) = mongo.delete_first id c)
  \/ (rt = PUT_todo_id /\ exists id title b,
        title <> "" /\ snd (serve rt r e c) = mongo.update_first id title b c).
Proof.
  unfold serve. cbn [snd]. destruct rt; cbn [todoHandlers].
  - left. apply fetchTodos_store.
  - destruct (createTodo_store r e c) as [H|H]; [left; exact H|].
    right; left. split; [reflexivity | exact H].
  - destruct (updateTodo_store r e c) as [H|H]; [left; exact H|].
    right; right; right. split; [reflexivity | exact H].
  - destruct (deleteTodo_store r e c) as [H|H]; [left; exact H|].
    right; right; left. split; [reflexivity | exact H].
Qed.

(** Non-empty titles and distinct identifiers survive every request. *)
Lemma serve_keeps_invariant (rt : route) (r : request) (e : env) (c : mongo.Collection) :
  (forall d, In d c -> m_Title d <> "") -> NoDup (map m_ID c) ->
  (forall d, In d (snd (serve rt r e c)) -> m_Title d <> "")
  /\ NoDup (map m_ID (snd (serve rt r e c))).
Proof.
  intros HT HN.
  destruct (serve_store rt r e c)
    as [E|[(_ & title & Hne & Hfresh & E)|[(_ & id & E)|(_ & id & title & b & Hne & E)]]];
    rewrite E; clear E.
  - split; assumption.
  - split.
    + intros d Hd. apply in_app_or in Hd. destruct Hd as [Hd|[<-|[]]];
        [exact (HT d Hd) | exact Hne].
    + apply insert_NoDup; assumption.
  - split.
    + intros d Hd. apply HT. exact (delete_first_incl _ _ _ Hd).
    + apply delete_first_NoDup. exact HN.
  - split.
    + intros d Hd. destruct (update_first_In _ _ _ _ _ Hd) as [H|(d0 & _ & ->)];
        [exact (HT d H) | exact Hne].
    + rewrite update_first_ids. exact HN.
Qed.

Lemma reachable_invariant (c : mongo.Collection) :
  reachable c -> (forall d, In d c -> m_Title d <> "") /\ NoDup (map m_ID c).
Proof.
  induction 1 as [|c rt r e _ [HT HN]].
  - split; [intros d [] | constructor].
  - apply serve_keeps_invariant; assumption.
Qed.

(** C3. In every collection reached from the empty one, every item has a
    non-empty title (and identifiers are distinct); and one more request,
    whatever its route, keeps the titles non-empty and leaves the
    identifier and createdAt of every document as they were, position by
    position: the only changes to them are one document appended by a
    create, with createdAt the time of that insertion, or one document
    removed by a delete. *)
Theorem stored_items_invariant (c : mongo.Collection) :
  reachable c ->
  (forall d, In d c -> m_Title d <> "")
  /\ NoDup (map m_ID c)
  /\ forall rt r e,
       (forall d, In d (snd (serve rt r e c)) -> m_Title d <> "")
       /\ (map (fun d => (m_ID d, m_CreatedAt d)) (snd (serve rt r e c))
           = map (fun d => (m_ID d, m_CreatedAt d)) c
           \/ (rt = POST_todo
               /\ ~ In (bson.NewObjectId (id_source e)) (map m_ID c)
               /\ map (fun d => (m_ID d, m_CreatedAt d)) (snd (serve rt r e c))
                  = map (fun d => (m_ID d, m_CreatedAt d)) c
                    ++ [(bson.NewObjectId (id_source e), time_Now e)])
           \/ (rt = DELETE_todo_id
               /\ exists l1 d l2, c = l1 ++ d :: l2 /\ snd (serve rt r e c) = l1 ++ l2)).
Proof.
  intro R. destruct (reachable_invariant c R) as (HT & HN).
  split; [exact HT|]. split; [exact HN|]. intros rt r e.
  split; [exact (proj1 (serve_keeps_invariant rt r e c HT HN))|].
  destruct (serve_store rt r e c)
    as [E|[(Hrt & title & Hne & Hfresh & E)|[(Hrt & id & E)|(_ & id & title & b & _ & E)]]];
    rewrite E; clear E.
  - left. reflexivity.
  - right; left. split; [exact Hrt|]. split.
    + intro Hin. apply in_map_iff in Hin. destruct Hin as (d & Ed & Hd).
      exact (proj1 (has_id_false _ _) Hfresh d Hd Ed).
    + rewrite map_app. reflexivity.
  - destruct (mongo.has_id id c) eqn:Hc.
    + right; right. split; [exact Hrt|].
      destruct (first_match id c Hc) as (l1 & d & l2 & -> & Ed & Hl1).
      exists l1, d, l2. split; [reflexivity | apply delete_first_at; assumption].
    + left. rewrite (delete_first_no_match id c Hc). reflexivity.
  - left. apply update_first_keeps.
Qed.

Lemma stored_items_invariant_witness :
  (forall d, In d (snd (serve POST_todo (sample.with_body "" (Some "buy milk") (Some true))
                          sample.calm [])) -> m_Title d <> "")
  /\ NoDup (map m_ID (snd (serve POST_todo
                             (sample.with_body "" (Some "buy milk") (Some true))
                             sample.calm []))).
Proof.
  pose proof (stored_items_invariant
                (snd (serve POST_todo (sample.with_body "" (Some "buy milk") (Some true))
                        sample.calm []))
                (reach_serve [] POST_todo
                   (sample.with_body "" (Some "buy milk") (Some true)) sample.calm
                   reach_empty)) as (HT & HN & _).
  split; [exact HT | exact HN].
Defined.

(** * Further properties of the handlers *)

(** ** Listing *)

Lemma firstn_skipn_nil {A : Type} (n : nat) (l : list A) :
  skipn n l = [] -> firstn n l = l.
Proof.
  intro H. rewrite <- (firstn_skipn n l) at 2. rewrite H, app_nil_r. reflexivity.
Qed.

Lemma skipn_nil_length {A : Type} (n : nat) (l : list A) :
  skipn n l = [] <-> (List.length l <= n)%nat.
Proof.
  split.
  - intro H. pose proof (length_skipn n l) as L. rewrite H in L. simpl in L. lia.
  - intro H. apply skipn_all2. exact H.
Qed.

(** The loop stops at the first document that does not decode. *)
Lemma fetch_loop_stops (l1 : list todoModel) (err : go_error)
  (rest : list (go_error + todoModel)) (l : list todoModel) :
  fetch_loop (map inr l1 ++ inl err :: rest) (elems l) = inl err.
Proof.
  revert l. induction l1 as [|d l1 IH]; intro l; simpl; [reflexivity|].
  unfold append. cbn [items]. apply IH.
Qed.

(** [fetchTodos] in full: the complete list, or the failure of the store
    that surfaced. *)
Lemma fetchTodos_cases (e : env) (c : mongo.Collection) :
  ((reads e = mongo.NoReadFault
    \/ exists n err, reads e = mongo.DecodeFails n err /\ (List.length c <= n)%nat)
   /\ run (fetchTodos e) c =
        {| out := Responded {| status := StatusOK;
                               content := M [("data", Todos (elems (map as_todo c)))] |};
           store := c; trace := [CallFind] |})
  \/ exists err,
       (reads e = mongo.FindFails err
        \/ (exists n, reads e = mongo.CursorFails n err)
        \/ (exists n, reads e = mongo.DecodeFails n err /\ (n < List.length c)%nat))
       /\ run (fetchTodos e) c =
            {| out := Responded {| status := StatusProcessing;
                                   content := fetch_failed err |};
               store := c; trace := [CallFind] |}.
Proof.
  destruct (reads e) as [|err|n err|n err] eqn:R.
  - left. split; [left; reflexivity | apply fetchTodos_run; exact R].
  - right. exists err. split; [left; reflexivity|].
    run_handler. rewrite R. reflexivity.
  - destruct (skipn n c) as [|d rest] eqn:S.
    + left. split.
      * right. exists n, err. split; [reflexivity | apply skipn_nil_length; exact S].
      * run_handler. rewrite R. cbn [mongo.Find mongo.documents mongo.Err].
        rewrite S, app_nil_r, (firstn_skipn_nil n c S), fetch_loop_all.
        cbn [app items]. rewrite todoList_all. reflexivity.
    + right. exists err. split.
      * right; right. exists n. split; [reflexivity|].
        destruct (Nat.lt_ge_cases n (List.length c)) as [L|L]; [exact L|].
        apply skipn_nil_length in L. congruence.
      * run_handler. rewrite R. cbn [mongo.Find mongo.documents mongo.Err].
        rewrite S, fetch_loop_stops. reflexivity.
  - right. exists err. split; [right; left; exists n; reflexivity|].
    run_handler. rewrite R. cbn [mongo.Find mongo.documents mongo.Err].
    rewrite fetch_loop_all. reflexivity.
Qed.

(** X1. A list answered 200 is never partial: its [data] holds one item per
    stored document, in the order of the store, each with the hexadecimal
    form of the document's identifier and its title, completed and
    createdAt. *)
Theorem fetchTodos_ok_is_complete (e : env) (c : mongo.Collection) (resp : response) :
  out (run (fetchTodos e) c) = Responded resp -> status resp = StatusOK ->
  content resp = M [("data", Todos (elems (map as_todo c)))]
  /\ marshal (content resp)
     = Some (JObj [("data", JArr (map (fun d =>
                      JObj [("id", JStr (bson.Hex (m_ID d))); ("title", JStr (m_Title d));
                            ("completed", JBool (m_Completed d));
                            ("createdAt", JTime (m_CreatedAt d))]) c))]).
Proof.
  intros Hout Hst.
  destruct (fetchTodos_cases e c) as [(_ & R)|(err & _ & R)];
    rewrite R in Hout; cbn [out] in Hout; inversion Hout; subst resp;
    [|discriminate Hst].
  split; [reflexivity|]. cbn [content marshal map fst snd marshal_value].
  rewrite map_map. reflexivity.
Qed.

Lemma fetchTodos_ok_is_complete_witness :
  content {| status := StatusOK;
             content := M [("data", Todos (elems [as_todo sample.milk]))] |}
  = M [("data", Todos (elems (map as_todo [sample.milk])))].
Proof.
  exact (proj1 (fetchTodos_ok_is_complete sample.calm [sample.milk]
                  {| status := StatusOK;
                     content := M [("data", Todos (elems [as_todo sample.milk]))] |}
                  eq_refl eq_refl)).
Defined.

(** X2. [fetchTodos] always answers, makes exactly one [Find] call and
    leaves the collection as it was; its answer is either 200 or 102, and a
    102 carries the message "Failed to fetch todos", the error of the store,
    and no [data]. *)
Theorem fetchTodos_answers (e : env) (c : mongo.Collection) :
  exists resp,
    run (fetchTodos e) c = {| out := Responded resp; store := c; trace := [CallFind] |}
    /\ (status resp = StatusOK
        \/ (status resp = StatusProcessing
            /\ exists err,
                 content resp = M [("message", Str "Failed to fetch todos");
                                   ("error", Error err)]
                 /\ has_field "message" (marshal (content resp)) = true
                 /\ has_field "data" (marshal (content resp)) = false)).
Proof.
  destruct (fetchTodos_cases e c) as [(_ & R)|(err & _ & R)]; rewrite R;
    eexists; (split; [reflexivity|]); [left; reflexivity|].
  right. split; [reflexivity|]. exists err. repeat split.
Qed.

(** X3. A store that fails while listing, at [Find], at the decoding of a
    stored document or at the end of the cursor, makes [fetchTodos] answer
    102 with that error, whatever was read before the failure. *)
Theorem fetchTodos_store_failure (e : env) (c : mongo.Collection) (err : go_error) :
  reads e = mongo.FindFails err
  \/ (exists n, reads e = mongo.CursorFails n err)
  \/ (exists n, reads e = mongo.DecodeFails n err /\ (n < List.length c)%nat) ->
  out (run (fetchTodos e) c)
  = Responded {| status := StatusProcessing;
                 content := M [("message", Str "Failed to fetch todos");
                               ("error", Error err)] |}.
Proof.
  intro H.
  destruct (fetchTodos_cases e c) as [([R|(n & err' & R & L)] & _)|(err' & H' & R)].
  - rewrite R in H. destruct H as [H|[(n & H)|(n & H & _)]]; discriminate H.
  - rewrite R in H. destruct H as [H|[(m & H)|(m & H & L')]]; try discriminate H.
    inversion H; subst. lia.
  - rewrite R. cbn [out]. 
    assert (err' = err); [|subst; reflexivity].
    destruct H as [H|[(n & H)|(n & H & _)]];
      destruct H' as [H'|[(m & H')|(m & H' & _)]]; congruence.
Qed.

Lemma fetchTodos_store_failure_witness :
  out (run (fetchTodos sample.down) [sample.milk])
  = Responded {| status := StatusProcessing;
                 content := M [("message", Str "Failed to fetch todos");
                               ("error", Error (DriverError "server selection error"))] |}.
Proof.
  exact (fetchTodos_store_failure sample.down [sample.milk]
           (DriverError "server selection error") (or_introl eq_refl)).
Defined.

(** ** Deleting *)

Lemma In_has_id (d : todoModel) (c : mongo.Collection) :
  In d c -> mongo.has_id (m_ID d) c = true.
Proof.
  intro H. unfold mongo.has_id. apply existsb_exists.
  exists d. split; [exact H | apply String.eqb_refl].
Qed.

(** With distinct identifiers, the first document under an identifier is the
    only one. *)
Lemma only_match (c l1 l2 : mongo.Collection) (d0 : todoModel) :
  NoDup (map m_ID c) -> c = l1 ++ d0 :: l2 ->
  mongo.has_id (m_ID d0) (l1 ++ l2) = false
  /\ forall d, In d c -> m_ID d = m_ID d0 -> d = d0.
Proof.
  intros N ->. rewrite map_app in N. cbn [map] in N.
  pose proof (NoDup_remove_2 _ _ _ N) as Hnot.
  split.
  - apply has_id_false. intros d Hd E. apply Hnot.
    rewrite <- map_app, <- E. apply in_map. exact Hd.
  - intros d Hd E. apply in_app_or in Hd. destruct Hd as [Hd|[Hd|Hd]].
    + elim Hnot. rewrite <- E. apply in_or_app. left. apply in_map. exact Hd.
    + symmetry. exact Hd.
    + elim Hnot. rewrite <- E. apply in_or_app. right. apply in_map. exact Hd.
Qed.

(** X4. Deleting a stored item: in a collection of distinct identifiers, a
    delete under the identifier of a stored document that the store performs
    without error is answered 200, removes that document and no other, and
    makes the collection one document shorter. *)
Theorem deleteTodo_removes_stored (r : request) (e : env) (c : mongo.Collection)
  (d : todoModel) :
  NoDup (map m_ID c) -> In d c ->
  bson.ObjectIdHex (URLParam_id r) = Some (m_ID d) ->
  writes e = mongo.NoFault ->
  out (run (deleteTodo r e) c)
  = Responded {| status := StatusOK;
                 content := M [("message", Str "Todo deleted successfully")] |}
  /\ S (List.length (store (run (deleteTodo r e) c))) = List.length c
  /\ mongo.has_id (m_ID d) (store (run (deleteTodo r e) c)) = false
  /\ (forall d', In d' (store (run (deleteTodo r e) c)) -> In d' c)
  /\ (forall d', In d' c -> d' <> d -> In d' (store (run (deleteTodo r e) c))).
Proof.
  intros N Hd Hid Hw.
  rewrite (deleteTodo_run r e c (m_ID d) Hid). unfold mongo.DeleteOne. rewrite Hw.
  cbn [out store]. split; [reflexivity|].
  destruct (first_match _ _ (In_has_id d c Hd)) as (l1 & d0 & l2 & Ec & Ed & Hl1).
  destruct (only_match c l1 l2 d0 N Ec) as (Hgone & Huniq).
  assert (d = d0) by (apply Huniq; [exact Hd | symmetry; exact Ed]). subst d0.
  rewrite Ec, (delete_first_at (m_ID d) l1 l2 d Hl1 eq_refl).
  repeat split.
  - rewrite !length_app. simpl. lia.
  - exact Hgone.
  - intros d' H. apply in_app_or in H. apply in_or_app. simpl. tauto.
  - intros d' H Hne. apply in_app_or in H. apply in_or_app.
    destruct H as [H|[H|H]]; [left; exact H | elim Hne; symmetry; exact H | right; exact H].
Qed.

Lemma deleteTodo_removes_stored_witness :
  out (run (deleteTodo (sample.with_body sample.milk_hex None None) sample.calm)
         [sample.milk])
  = Responded {| status := StatusOK;
                 content := M [("message", Str "Todo deleted successfully")] |}.
Proof.
  refine (proj1 (deleteTodo_removes_stored
                   (sample.with_body sample.milk_hex None None) sample.calm
                   [sample.milk] sample.milk _ (or_introl eq_refl) eq_refl eq_refl)).
  repeat constructor. simpl. tauto.
Defined.

(** X5. Deleting is idempotent: in a collection of distinct identifiers, a
    second delete under the same identifier gets the same answer as the
    first and changes nothing more. *)
Theorem deleteTodo_twice (r : request) (e1 e2 : env) (c : mongo.Collection) :
  NoDup (map m_ID c) ->
  writes e1 = mongo.NoFault -> writes e2 = mongo.NoFault ->
  out (run (deleteTodo r e2) (store (run (deleteTodo r e1) c)))
  = out (run (deleteTodo r e1) c)
  /\ store (run (deleteTodo r e2) (store (run (deleteTodo r e1) c)))
     = store (run (deleteTodo r e1) c).
Proof.
  intros N H1 H2.
  destruct (bson.IsObjectIdHex (URLParam_id r)) eqn:V.
  - destruct (IsObjectIdHex_ObjectIdHex _ V) as (id & Hid).
    rewrite !(deleteTodo_run r _ _ id Hid). unfold mongo.DeleteOne.
    rewrite H1, H2. cbn [out store]. split; [reflexivity|].
    apply delete_first_no_match.
    destruct (mongo.has_id id c) eqn:Hc.
    + destruct (first_match id c Hc) as (l1 & d0 & l2 & Ec & Ed & Hl1).
      destruct (only_match c l1 l2 d0 N Ec) as (Hgone & _).
      rewrite Ec, (delete_first_at id l1 l2 d0 Hl1 Ed). rewrite <- Ed. exact Hgone.
    + rewrite (delete_first_no_match id c Hc). exact Hc.
  - assert (R : forall e c', run (deleteTodo r e) c' =
               {| out := Responded {| status := StatusBadRequest;
                                      content := M [("message", Str "Invalid todo ID")] |};
                  store := c'; trace := [] |}).
    { intros e c'. run_handler. rewrite V. reflexivity. }
    rewrite !R. split; reflexivity.
Qed.

Lemma deleteTodo_twice_witness :
  store (run (deleteTodo (sample.with_body sample.milk_hex None None) sample.calm)
           (store (run (deleteTodo (sample.with_body sample.milk_hex None None)
                          sample.calm) [sample.milk])))
  = store (run (deleteTodo (sample.with_body sample.milk_hex None None) sample.calm)
             [sample.milk]).
Proof.
  refine (proj2 (deleteTodo_twice (sample.with_body sample.milk_hex None None)
                   sample.calm sample.calm [sample.milk] _ eq_refl eq_refl)).
  repeat constructor. simpl. tauto.
Defined.

(** ** Creating, then using the identifier returned *)

(** A create answered 201 stored its document behind the others, under an
    identifier that was not stored before. *)
Lemma createTodo_201 (r : request) (e : env) (c : mongo.Collection) (resp : response) :
  out (run (createTodo r e) c) = Responded resp -> status resp = StatusCreated ->
  exists f title,
    Body r = Decodable f /\ f_title f = Some title /\ title <> ""
    /\ mongo.has_id (bson.NewObjectId (id_source e)) c = false
    /\ run (createTodo r e) c =
         {| out := Responded
                     {| status := StatusCreated;
                        content := M [("message", Str "Todo created successfully");
                                      ("todo_id",
                                       Str (bson.Hex (bson.NewObjectId (id_source e))))] |};
            store := c ++ [{| m_ID := bson.NewObjectId (id_source e); m_Title := title;
                              m_Completed := false; m_CreatedAt := time_Now e |}];
            trace := [CallInsertOne
                        {| m_ID := bson.NewObjectId (id_source e); m_Title := title;
                           m_Completed := false; m_CreatedAt := time_Now e |}] |}.
Proof.
  intros Hout Hst.
  destruct (Body r) as [err|f] eqn:HB.
  { revert Hout. run_handler. rewrite HB. intro H. inversion H; subst resp.
    discriminate Hst. }
  destruct (String.eqb (or_keep (f_title f) "") "") eqn:ET.
  { revert Hout. run_handler. rewrite HB, Decode_fresh. cbn [t_Title]. rewrite ET.
    intro H. inversion H; subst resp. discriminate Hst. }
  destruct (or_keep_title f ET) as (HT & Hne).
  exists f, (or_keep (f_title f) ""). split; [reflexivity|].
  split; [exact HT|]. split; [exact Hne|].
  rewrite (createTodo_run r e c f _ HB HT Hne) in *.
  unfold mongo.InsertOne in *. cbn [m_ID] in *.
  destruct (writes e) as [|err|err];
    destruct (mongo.has_id (bson.NewObjectId (id_source e)) c);
    cbn [out] in Hout; inversion Hout; subst resp; try discriminate Hst.
  split; reflexivity.
Qed.

(** X6. Create then delete: after a create answered 201, a delete under the
    [todo_id] of the answer, performed by the store without error, is
    answered 200 and gives back the collection as it was before the
    create. *)
Theorem create_then_delete (r : request) (e : env) (c : mongo.Collection)
  (resp : response) :
  out (run (createTodo r e) c) = Responded resp -> status resp = StatusCreated ->
  exists todo_id,
    content resp = M [("message", Str "Todo created successfully");
                      ("todo_id", Str todo_id)]
    /\ forall rd ed,
         URLParam_id rd = todo_id -> writes ed = mongo.NoFault ->
         run (deleteTodo rd ed) (store (run (createTodo r e) c))
         = {| out := Responded
                       {| status := StatusOK;
                          content := M [("message", Str "Todo deleted successfully")] |};
              store := c;
              trace := [CallDeleteOne (bson.NewObjectId (id_source e))] |}.
Proof.
  intros Hout Hst.
  destruct (createTodo_201 r e c resp Hout Hst) as (f & title & _ & _ & _ & Hfresh & R).
  rewrite R in Hout |- *. cbn [out store] in *. inversion Hout; subst resp.
  eexists. split; [reflexivity|]. intros rd ed Hrd Hw.
  pose proof (Hex_of_12_bytes _ (NewObjectId_length (id_source e))) as (_ & _ & _ & Hid).
  rewrite <- Hrd in Hid.
  rewrite (deleteTodo_run rd ed _ _ Hid). unfold mongo.DeleteOne. rewrite Hw.
  match goal with |- context [c ++ [?d]] => set (tm := d) end.
  rewrite (delete_first_at (bson.NewObjectId (id_source e)) c [] tm Hfresh eq_refl),
    app_nil_r.
  reflexivity.
Qed.

Lemma create_then_delete_witness :
  exists todo_id,
    M [("message", Str "Todo created successfully"); ("todo_id", Str sample.milk_hex)]
    = M [("message", Str "Todo created successfully"); ("todo_id", Str todo_id)]
    /\ forall rd ed,
         URLParam_id rd = todo_id -> writes ed = mongo.NoFault ->
         run (deleteTodo rd ed)
           (store (run (createTodo (sample.with_body "" (Some "buy milk") None)
                          sample.calm) []))
         = {| out := Responded
                       {| status := StatusOK;
                          content := M [("message", Str "Todo deleted successfully")] |};
              store := [];
              trace := [CallDeleteOne sample.milk_id] |}.
Proof.
  exact (create_then_delete (sample.with_body "" (Some "buy milk") None) sample.calm []
           {| status := StatusCreated;
              content := M [("message", Str "Todo created successfully");
                            ("todo_id", Str sample.milk_hex)] |}
           eq_refl eq_refl).
Defined.



(** ** What the handlers read, and what they never do *)

(** X8. [createTodo] takes nothing from the request but the title: two
    requests whose bodies decode to the same title are served alike,
    whatever their [id], [completed] and [createdAt] members and their
    path. *)
Theorem createTodo_reads_title_only (r1 r2 : request) (e : env)
  (c : mongo.Collection) (f1 f2 : fields) :
  Body r1 = Decodable f1 -> Body r2 = Decodable f2 ->
  or_keep (f_title f1) "" = or_keep (f_title f2) "" ->
  run (createTodo r1 e) c = run (createTodo r2 e) c.
Proof.
  intros H1 H2 HT. unfold createTodo. rewrite H1, H2, !Decode_fresh.
  cbn [t_Title]. rewrite HT. reflexivity.
Qed.

Lemma createTodo_reads_title_only_witness :
  run (createTodo (sample.with_body "" (Some "buy milk") (Some true)) sample.calm)
      [sample.milk]
  = run (createTodo
           {| URLParam_id := "abc";
              Body := Decodable {| f_id := Some sample.other_hex;
                                   f_title := Some "buy milk";
                                   f_completed := None;
                                   f_createdAt := Some 5 |} |} sample.calm)
      [sample.milk].
Proof.
  exact (createTodo_reads_title_only
           (sample.with_body "" (Some "buy milk") (Some true))
           {| URLParam_id := "abc";
              Body := Decodable {| f_id := Some sample.other_hex;
                                   f_title := Some "buy milk";
                                   f_completed := None;
                                   f_createdAt := Some 5 |} |}
           sample.calm [sample.milk]
           {| f_id := None; f_title := Some "buy milk";
              f_completed := Some true; f_createdAt := None |}
           {| f_id := Some sample.other_hex; f_title := Some "buy milk";
              f_completed := None; f_createdAt := Some 5 |}
           eq_refl eq_refl eq_refl).
Defined.

(** X9. [updateTodo] takes from a request whose body the decoder accepts
    the identifier of the path, the title and completed: two requests with
    the same path identifier whose bodies decode to the same title and
    completed are served alike, whatever [id] and [createdAt] they decode
    to. *)
Theorem updateTodo_reads_title_and_completed (r1 r2 : request) (e : env)
  (c : mongo.Collection) (f1 f2 : fields) :
  URLParam_id r1 = URLParam_id r2 ->
  Body r1 = Decodable f1 -> Body r2 = Decodable f2 ->
  or_keep (f_title f1) "" = or_keep (f_title f2) "" ->
  or_keep (f_completed f1) false = or_keep (f_completed f2) false ->
  run (updateTodo r1 e) c = run (updateTodo r2 e) c.
Proof.
  intros Hid H1 H2 HT HC. unfold updateTodo. rewrite Hid, H1, H2, !Decode_fresh.
  cbn [t_Title t_Completed]. rewrite HT, HC. reflexivity.
Qed.

Lemma updateTodo_reads_title_and_completed_witness :
  run (updateTodo (sample.with_body sample.milk_hex (Some "buy oat milk") (Some true))
         sample.calm) [sample.milk]
  = run (updateTodo
           {| URLParam_id := sample.milk_hex;
              Body := Decodable {| f_id := Some sample.other_hex;
                                   f_title := Some "buy oat milk";
                                   f_completed := Some true;
                                   f_createdAt := Some 5 |} |} sample.calm)
      [sample.milk].
Proof.
  exact (updateTodo_reads_title_and_completed
           (sample.with_body sample.milk_hex (Some "buy oat milk") (Some true))
           {| URLParam_id := sample.milk_hex;
              Body := Decodable {| f_id := Some sample.other_hex;
                                   f_title := Some "buy oat milk";
                                   f_completed := Some true;
                                   f_createdAt := Some 5 |} |}
           sample.calm [sample.milk]
           {| f_id := None; f_title := Some "buy oat milk";
              f_completed := Some true; f_createdAt := None |}
           {| f_id := Some sample.other_hex; f_title := Some "buy oat milk";
              f_completed := Some true; f_createdAt := Some 5 |}
           eq_refl eq_refl eq_refl eq_refl eq_refl).
Defined.

(** [createTodo] and [deleteTodo] always render a response. *)
Lemma createTodo_responds (r : request) (e : env) (c : mongo.Collection) :
  exists resp, out (run (createTodo r e) c) = Responded resp.
Proof.
  destruct (Body r) as [err|f] eqn:HB.
  { run_handler. rewrite HB. eexists; reflexivity. }
  destruct (String.eqb (or_keep (f_title f) "") "") eqn:ET.
  { run_handler. rewrite HB, Decode_fresh. cbn [t_Title]. rewrite ET.
    eexists; reflexivity. }
  destruct (or_keep_title f ET) as (HT & Hne).
  rewrite (createTodo_run r e c f _ HB HT Hne).
  destruct (mongo.InsertOne c _ (writes e)) as [c' [err|]]; eexists; reflexivity.
Qed.

Lemma deleteTodo_responds (r : request) (e : env) (c : mongo.Collection) :
  exists resp, out (run (deleteTodo r e) c) = Responded resp.
Proof.
  destruct (bson.IsObjectIdHex (URLParam_id r)) eqn:V.
  - destruct (IsObjectIdHex_ObjectIdHex _ V) as (id & Hid).
    rewrite (deleteTodo_run r e c id Hid).
    destruct (mongo.DeleteOne c id (writes e)) as [c' [err|]]; eexists; reflexivity.
  - run_handler. rewrite V. eexists; reflexivity.
Qed.

(** X10. The only panic of the service: a handler panics exactly when the
    route is the update, the identifier of the path is not empty and not a
    well-formed identifier, and the body decodes with a non-empty title.
    The list, create and delete handlers never panic: the check of
    [deleteTodo] keeps [bson.ObjectIdHex] from the texts it panics on. *)
Theorem handler_panics_iff (rt : route) (r : request) (e : env) (c : mongo.Collection) :
  (exists s, out (run (todoHandlers rt r e) c) = Panicked s)
  <-> (rt = PUT_todo_id /\ URLParam_id r <> ""
       /\ bson.IsObjectIdHex (URLParam_id r) = false
       /\ exists f, Body r = Decodable f /\ or_keep (f_title f) "" <> "").
Proof.
  split.
  - intros (s & H). destruct rt; cbn [todoHandlers] in H.
    + destruct (fetchTodos_cases e c) as [(_ & R)|(err & _ & R)];
        rewrite R in H; discriminate H.
    + destruct (createTodo_responds r e c) as (resp & R). congruence.
    + destruct (updateTodo_stops r e c)
        as [(_ & R)|[(err & _ & R)|[(f & _ & _ & R)|[(Hid & R)|(f & id & HB & HT & Hid)]]]];
        try (rewrite R in H; discriminate H).
      * split; [reflexivity|].
        assert (V : bson.IsObjectIdHex (URLParam_id r) = false)
          by (apply ObjectIdHex_panics_iff; exact Hid).
        destruct (String.eqb (URLParam_id r) "") eqn:E0.
        { revert H. run_handler. rewrite E0. discriminate. }
        split; [apply String.eqb_neq; exact E0|]. split; [exact V|].
        destruct (Body r) as [err|f] eqn:HB.
        { revert H. run_handler. rewrite E0, HB. discriminate. }
        exists f. split; [reflexivity|]. intro ET.
        revert H. run_handler. rewrite E0, HB, Decode_fresh. cbn [t_Title].
        rewrite ET. discriminate.
      * rewrite (updateTodo_run r e c f id HB HT Hid) in H.
        destruct (mongo.UpdateOne c id _ _ (writes e)) as [c' [err|]]; discriminate H.
    + destruct (deleteTodo_responds r e c) as (resp & R). congruence.
  - intros (-> & Hne & V & f & HB & HT). exists (URLParam_id r).
    cbn [todoHandlers]. run_handler.
    apply String.eqb_neq in Hne, HT. apply ObjectIdHex_panics_iff in V.
    rewrite Hne, HB, Decode_fresh. cbn [t_Title]. rewrite HT, V. reflexivity.
Qed.

(** X11. A request answered 400 never reached the store: no storage call
    was made, the collection is as it was, and the answer carries a
    [message]. *)
Theorem bad_request_touches_nothing (rt : route) (r : request) (e : env)
  (c : mongo.Collection) (resp : response) :
  out (run (todoHandlers rt r e) c) = Responded resp ->
  status resp = StatusBadRequest ->
  store (run (todoHandlers rt r e) c) = c
  /\ trace (run (todoHandlers rt r e) c) = []
  /\ has_field "message" (marshal (content resp)) = true.
Proof.
  destruct rt; cbn [todoHandlers]; intros H Hst.
  - destruct (fetchTodos_cases e c) as [(_ & R)|(err & _ & R)];
      rewrite R in H; inversion H; subst resp; discriminate Hst.
  - destruct (Body r) as [err|f] eqn:HB.
    { revert H. run_handler. rewrite HB. intro H. inversion H; subst resp.
      discriminate Hst. }
    destruct (String.eqb (or_keep (f_title f) "") "") eqn:ET.
    { revert H. run_handler. rewrite HB, Decode_fresh. cbn [t_Title]. rewrite ET.
      intro H. inversion H; subst resp. repeat split. }
    destruct (or_keep_title f ET) as (HT & Hne).
    rewrite (createTodo_run r e c f _ HB HT Hne) in H.
    destruct (mongo.InsertOne c _ (writes e)) as [c' [err|]];
      inversion H; subst resp; discriminate Hst.
  - destruct (updateTodo_stops r e c)
      as [(_ & R)|[(err & _ & R)|[(f & _ & _ & R)|[(_ & R)|(f & id & HB & HT & Hid)]]]];
      try (rewrite R in *; cbn [out store trace] in *; inversion H; subst resp;
           first [discriminate Hst | repeat split]).
    rewrite (updateTodo_run r e c f id HB HT Hid) in H.
    destruct (mongo.UpdateOne c id _ _ (writes e)) as [c' [err|]];
      inversion H; subst resp; discriminate Hst.
  - destruct (bson.IsObjectIdHex (URLParam_id r)) eqn:V.
    + destruct (IsObjectIdHex_ObjectIdHex _ V) as (id & Hid).
      rewrite (deleteTodo_run r e c id Hid) in H.
      destruct (mongo.DeleteOne c id (writes e)) as [c' [err|]];
        inversion H; subst resp; discriminate Hst.
    + revert H. run_handler. rewrite V. intro H. inversion H; subst resp.
      repeat split.
Qed.

Lemma bad_request_touches_nothing_witness :
  store (run (todoHandlers DELETE_todo_id (sample.with_body "abc" None None)
                sample.calm) [sample.milk]) = [sample.milk]
  /\ trace (run (todoHandlers DELETE_todo_id (sample.with_body "abc" None None)
                   sample.calm) [sample.milk]) = []
  /\ has_field "message" (marshal (M [("message", Str "Invalid todo ID")])) = true.
Proof.
  exact (bad_request_touches_nothing DELETE_todo_id (sample.with_body "abc" None None)
           sample.calm [sample.milk]
           {| status := StatusBadRequest;
              content := M [("message", Str "Invalid todo ID")] |}
           eq_refl eq_refl).
Defined.

Lemma handler_panics_iff_witness :
  exists s,
    out (run (todoHandlers PUT_todo_id (sample.with_body "abc" (Some "buy oat milk") None)
                sample.calm) [sample.milk]) = Panicked s.
Proof.
  apply (proj2 (handler_panics_iff PUT_todo_id
                  (sample.with_body "abc" (Some "buy oat milk") None)
                  sample.calm [sample.milk])).
  split; [reflexivity|]. split; [discriminate|]. split; [reflexivity|].
  eexists. split; [reflexivity | discriminate].
Defined.

Lemma delete_first_length (id : bson.ObjectId) (c : mongo.Collection) :
  List.length (mongo.delete_first id c) = List.length c
  \/ S (List.length (mongo.delete_first id c)) = List.length c.
Proof.
  induction c as [|d c IH]; simpl; [left; reflexivity|].
  destruct (String.eqb (m_ID d) id); simpl; [right; reflexivity|].
  destruct IH as [IH|IH]; [left | right]; lia.
Qed.

Lemma update_first_length (id : bson.ObjectId) (title : string) (b : bool)
  (c : mongo.Collection) :
  List.length (mongo.update_first id title b c) = List.length c.
Proof.
  rewrite <- (length_map m_ID), update_first_ids, length_map. reflexivity.
Qed.

(** X12. How many items one request can add or remove: a list or an update
    leaves the number of stored items as it is, a create adds at most one
    and removes none, a delete removes at most one and adds none. *)
Theorem collection_size_step (rt : route) (r : request) (e : env)
  (c : mongo.Collection) :
  match rt with
  | GET_todo | PUT_todo_id =>
      List.length (store (run (todoHandlers rt r e) c)) = List.length c
  | POST_todo =>
      List.length (store (run (todoHandlers rt r e) c)) = List.length c
      \/ List.length (store (run (todoHandlers rt r e) c)) = S (List.length c)
  | DELETE_todo_id =>
      List.length (store (run (todoHandlers rt r e) c)) = List.length c
      \/ S (List.length (store (run (todoHandlers rt r e) c))) = List.length c
  end.
Proof.
  destruct rt; cbn [todoHandlers].
  - rewrite fetchTodos_store. reflexivity.
  - destruct (createTodo_store r e c) as [E|(title & _ & _ & E)]; rewrite E;
      [left; reflexivity | right; rewrite length_app; simpl; lia].
  - destruct (updateTodo_store r e c) as [E|(id & title & b & _ & E)]; rewrite E;
      [reflexivity | apply update_first_length].
  - destruct (deleteTodo_store r e c) as [E|(id & E)]; rewrite E;
      [left; reflexivity | apply delete_first_length].
Qed.

(** X13. Every request makes at most one storage call, and the call is the
    one of its route: [Find] for the list, [InsertOne] for the create,
    [UpdateOne] for the update, [DeleteOne] for the delete. *)
Theorem one_storage_call (rt : route) (r : request) (e : env) (c : mongo.Collection) :
  trace (run (todoHandlers rt r e) c) = []
  \/ exists k,
       trace (run (todoHandlers rt r e) c) = [k]
       /\ match rt, k with
          | GET_todo, CallFind => True
          | POST_todo, CallInsertOne doc =>
              m_ID doc = bson.NewObjectId (id_source e) /\ m_Completed doc = false
              /\ m_CreatedAt doc = time_Now e /\ m_Title doc <> ""
          | PUT_todo_id, CallUpdateOne id title _ =>
              bson.ObjectIdHex (URLParam_id r) = Some id /\ title <> ""
          | DELETE_todo_id, CallDeleteOne id =>
              bson.ObjectIdHex (URLParam_id r) = Some id
          | _, _ => False
          end.
Proof.
  destruct rt; cbn [todoHandlers].
  - right. exists CallFind.
    destruct (fetchTodos_cases e c) as [(_ & R)|(err & _ & R)]; rewrite R;
      split; [reflexivity | exact I | reflexivity | exact I].
  - destruct (Body r) as [err|f] eqn:HB.
    { left. run_handler. rewrite HB. reflexivity. }
    destruct (String.eqb (or_keep (f_title f) "") "") eqn:ET.
    { left. run_handler. rewrite HB, Decode_fresh. cbn [t_Title]. rewrite ET.
      reflexivity. }
    destruct (or_keep_title f ET) as (HT & Hne).
    right. eexists. rewrite (createTodo_run r e c f _ HB HT Hne).
    destruct (mongo.InsertOne c _ (writes e)) as [c' [err|]]; cbn [trace];
      (split; [reflexivity|]); cbn; repeat split; exact Hne.
  - destruct (updateTodo_stops r e c)
      as [(_ & R)|[(err & _ & R)|[(f & _ & _ & R)|[(_ & R)|(f & id & HB & HT & Hid)]]]];
      try (left; rewrite R; reflexivity).
    destruct (or_keep_title f HT) as (_ & Hne).
    right. eexists. rewrite (updateTodo_run r e c f id HB HT Hid).
    destruct (mongo.UpdateOne c id _ _ (writes e)) as [c' [err|]]; cbn [trace];
      (split; [reflexivity|]); split; assumption.
  - destruct (bson.IsObjectIdHex (URLParam_id r)) eqn:V.
    + destruct (IsObjectIdHex_ObjectIdHex _ V) as (id & Hid).
      right. exists (CallDeleteOne id). rewrite (deleteTodo_run r e c id Hid).
      destruct (mongo.DeleteOne c id (writes e)) as [c' [err|]]; cbn [trace];
        split; [reflexivity | exact Hid | reflexivity | exact Hid].
    + left. run_handler. rewrite V. reflexivity.
Qed.

Lemma update_first_twice (id : bson.ObjectId) (t1 t2 : string) (b1 b2 : bool)
  (c : mongo.Collection) :
  mongo.update_first id t2 b2 (mongo.update_first id t1 b1 c)
  = mongo.update_first id t2 b2 c.
Proof.
  induction c as [|d c IH]; simpl; [reflexivity|].
  destruct (String.eqb (m_ID d) id) eqn:E; simpl.
  - rewrite E. reflexivity.
  - rewrite E, IH. reflexivity.
Qed.

(** X14. The last update wins: when an update is answered 200, whatever an
    earlier update under the same identifier did is overwritten, and the
    collection is the one this update alone would have left. *)
Theorem updateTodo_last_wins (r1 r2 : request) (e1 e2 : env) (c : mongo.Collection)
  (resp : response) :
  URLParam_id r1 = URLParam_id r2 ->
  out (run (updateTodo r2 e2) c) = Responded resp -> status resp = StatusOK ->
  store (run (updateTodo r2 e2) (store (run (updateTodo r1 e1) c)))
  = store (run (updateTodo r2 e2) c)
  /\ out (run (updateTodo r2 e2) (store (run (updateTodo r1 e1) c)))
     = Responded resp.
Proof.
  intros Hsame Hout Hst.
  destruct (updateTodo_stops r2 e2 c)
    as [(_ & R)|[(err & _ & R)|[(f & _ & _ & R)|[(_ & R)|(f2 & id & HB2 & HT2 & Hid2)]]]];
    try (rewrite R in Hout; cbn [out] in Hout; inversion Hout; subst resp;
         discriminate Hst).
  rewrite (updateTodo_run r2 e2 c f2 id HB2 HT2 Hid2) in *.
  rewrite (updateTodo_run r2 e2 _ f2 id HB2 HT2 Hid2).
  unfold mongo.UpdateOne in *.
  destruct (writes e2) as [|err|err]; cbn [out store] in *;
    try (inversion Hout; subst resp; discriminate Hst).
  split; [|exact Hout].
  destruct (updateTodo_stops r1 e1 c)
    as [(_ & R)|[(err & _ & R)|[(f & _ & _ & R)|[(_ & R)|(f1 & id' & HB1 & HT1 & Hid1)]]]];
    try (rewrite R; reflexivity).
  rewrite (updateTodo_run r1 e1 c f1 id' HB1 HT1 Hid1).
  rewrite Hsame, Hid2 in Hid1. inversion Hid1; subst id'.
  unfold mongo.UpdateOne.
  destruct (writes e1) as [|err|err]; cbn [store];
    first [reflexivity | apply update_first_twice].
Qed.

Lemma updateTodo_last_wins_witness :
  store (run (updateTodo (sample.with_body sample.milk_hex (Some "buy oat milk") None)
                sample.calm)
           (store (run (updateTodo
                          (sample.with_body sample.milk_hex (Some "buy soy milk")
                             (Some true))
                          sample.calm) [sample.milk])))
  = store (run (updateTodo (sample.with_body sample.milk_hex (Some "buy oat milk") None)
                  sample.calm) [sample.milk]).
Proof.
  exact (proj1 (updateTodo_last_wins
                  (sample.with_body sample.milk_hex (Some "buy soy milk") (Some true))
                  (sample.with_body sample.milk_hex (Some "buy oat milk") None)
                  sample.calm sample.calm [sample.milk]
                  {| status := StatusOK;
                     content := M [("message", Str "Todo successfully updated")] |}
                  eq_refl eq_refl eq_refl)).
Defined.

(** ** Identifiers as text *)

Lemma DecodeString_accepts (s : string) :
  hex.DecodeString s <> None
  <-> Nat.even (String.length s) = true
      /\ Forall (fun ch => hex.fromHexChar ch <> None) (list_ascii_of_string s).
Proof.
  induction s as [|a|a b s IH] using string_pairs_ind.
  - simpl. split; [intros _; split; [reflexivity | constructor] | discriminate].
  - simpl. split; [intro H; elim H; reflexivity | intros [H _]; discriminate H].
  - cbn [hex.DecodeString String.length list_ascii_of_string].
    change (Nat.even (S (S (String.length s)))) with (Nat.even (String.length s)).
    destruct (hex.fromHexChar a) as [x|] eqn:Ea.
    + destruct (hex.fromHexChar b) as [y|] eqn:Eb.
      * destruct (hex.DecodeString s) as [d|] eqn:Ed.
        -- split; [intros _ | discriminate].
           destruct (proj1 IH) as (He & Hf); [discriminate|].
           split; [exact He|]. repeat constructor; congruence.
        -- split; [intro H; elim H; reflexivity|].
           intros (He & Hf). inversion Hf as [|? ? _ Hf']; subst.
           inversion Hf' as [|? ? _ Hf'']; subst.
           elim (proj2 IH (conj He Hf'')). reflexivity.
      * split; [intro H; elim H; reflexivity|].
        intros (_ & Hf). inversion Hf as [|? ? _ Hf']; subst.
        inversion Hf' as [|? ? Hb _]; subst. congruence.
    + split; [intro H; elim H; reflexivity|].
      intros (_ & Hf). inversion Hf as [|? ? Ha _]; subst. congruence.
Qed.

(** X15. The identifiers the delete handler lets through: [IsObjectIdHex]
    accepts exactly the texts of 24 characters that are all hexadecimal
    digits, in either case. *)
Theorem IsObjectIdHex_spec (s : string) :
  bson.IsObjectIdHex s = true
  <-> String.length s = 24%nat
      /\ Forall (fun ch => hex.between "0" ch "9" || hex.between "a" ch "f"
                           || hex.between "A" ch "F" = true)
           (list_ascii_of_string s).
Proof.
  assert (D : forall ch, hex.fromHexChar ch <> None
                         <-> hex.between "0" ch "9" || hex.between "a" ch "f"
                             || hex.between "A" ch "F" = true).
  { intro ch. unfold hex.fromHexChar.
    destruct (hex.between "0" ch "9"); [split; [reflexivity | discriminate]|].
    destruct (hex.between "a" ch "f"); [split; [reflexivity | discriminate]|].
    destruct (hex.between "A" ch "F"); [split; [reflexivity | discriminate]|].
    split; [intro H; elim H; reflexivity | discriminate]. }
  unfold bson.IsObjectIdHex. split.
  - destruct (Nat.eqb (String.length s) 24) eqn:L; cbn [negb]; [|discriminate].
    apply Nat.eqb_eq in L. intro H. split; [exact L|].
    destruct (hex.DecodeString s) eqn:E; [|discriminate H].
    destruct (proj1 (DecodeString_accepts s)) as (_ & Hf); [congruence|].
    eapply Forall_impl; [|exact Hf]. intros ch Hc. apply D. exact Hc.
  - intros (L & Hf). rewrite L. cbn [Nat.eqb negb].
    destruct (hex.DecodeString s) eqn:E; [reflexivity|].
    elim (proj2 (DecodeString_accepts s)); [|exact E].
    split; [rewrite L; reflexivity|].
    eapply Forall_impl; [|exact Hf]. intros ch Hc. apply D. exact Hc.
Qed.

Lemma IsObjectIdHex_spec_witness :
  bson.IsObjectIdHex "6553F1006162631092000007" = true.
Proof.
  apply (proj2 (IsObjectIdHex_spec "6553F1006162631092000007")).
  split; [reflexivity | repeat constructor].
Defined.

(** X16. Hexadecimal text round trip: whatever the bytes, decoding the text
    [EncodeToString] writes gives the bytes back; so [Hex] is injective, and
    two stored documents are listed under the same [id] only if they have
    the same identifier. *)
Theorem Hex_injective (id1 id2 : bson.ObjectId) :
  hex.DecodeString (bson.Hex id1) = Some id1
  /\ (bson.Hex id1 = bson.Hex id2 -> id1 = id2)
  /\ forall d1 d2, t_ID (as_todo d1) = t_ID (as_todo d2) -> m_ID d1 = m_ID d2.
Proof.
  assert (I : forall a b, bson.Hex a = bson.Hex b -> a = b).
  { intros a b H. unfold bson.Hex in H.
    pose proof (DecodeString_EncodeToString a) as Ha.
    rewrite H, DecodeString_EncodeToString in Ha. inversion Ha. reflexivity. }
  split; [apply DecodeString_EncodeToString|]. split; [apply I|].
  intros d1 d2. cbn [as_todo t_ID]. apply I.
Qed.

Lemma Hex_injective_witness :
  hex.DecodeString (bson.Hex sample.milk_id) = Some sample.milk_id.
Proof.
  exact (proj1 (Hex_injective sample.milk_id sample.milk_id)).
Defined.

(** X17. Identifiers are read without regard to case or to the text used:
    two delete requests, or two update requests with the same body, whose
    path texts decode to the same identifier are served alike; in
    particular the text a list shows for an identifier and any other
    spelling of it address the same item. *)
Theorem same_identifier_same_service (r1 r2 : request) (e : env)
  (c : mongo.Collection) (id : bson.ObjectId) :
  bson.ObjectIdHex (URLParam_id r1) = Some id ->
  bson.ObjectIdHex (URLParam_id r2) = Some id ->
  Body r1 = Body r2 ->
  run (deleteTodo r1 e) c = run (deleteTodo r2 e) c
  /\ run (updateTodo r1 e) c = run (updateTodo r2 e) c
  /\ String.length id = 12%nat
  /\ bson.ObjectIdHex (bson.Hex id) = Some id.
Proof.
  intros H1 H2 HB.
  assert (L : String.length id = 12%nat).
  { unfold bson.ObjectIdHex in H1. destruct (hex.DecodeString (URLParam_id r1)) as [d|];
      [|discriminate]. destruct (Nat.eqb (String.length d) 12) eqn:L; [|discriminate].
    inversion H1; subst. apply Nat.eqb_eq. exact L. }
  split; [rewrite (deleteTodo_run r1 e c id H1), (deleteTodo_run r2 e c id H2);
          reflexivity|].
  split; [|split; [exact L | apply (Hex_of_12_bytes id L)]].
  unfold updateTodo, bson_ObjectIdHex.
  rewrite (ObjectIdHex_nonempty _ _ H1), (ObjectIdHex_nonempty _ _ H2).
  rewrite HB, H1, H2. reflexivity.
Qed.

Lemma same_identifier_same_service_witness :
  run (deleteTodo (sample.with_body "6553F1006162631092000007" None None) sample.calm)
      [sample.milk]
  = run (deleteTodo (sample.with_body sample.milk_hex None None) sample.calm)
      [sample.milk].
Proof.
  exact (proj1 (same_identifier_same_service
                  (sample.with_body "6553F1006162631092000007" None None)
                  (sample.with_body sample.milk_hex None None)
                  sample.calm [sample.milk] sample.milk_id
                  eq_refl eq_refl eq_refl)).
Defined.

(** ** Reachable collections and what a list shows of them *)

Lemma reachable_ids (c : mongo.Collection) :
  reachable c -> forall d, In d c -> String.length (m_ID d) = 12%nat.
Proof.
  induction 1 as [|c rt r e _ IH]; [intros d []|].
  destruct (serve_store rt r e c)
    as [E|[(_ & title & _ & _ & E)|[(_ & id & E)|(_ & id & title & b & _ & E)]]];
    rewrite E; clear E; intros d Hd.
  - exact (IH d Hd).
  - apply in_app_or in Hd. destruct Hd as [Hd|[<-|[]]]; [exact (IH d Hd)|].
    apply NewObjectId_length.
  - exact (IH d (delete_first_incl _ _ _ Hd)).
  - destruct (update_first_In _ _ _ _ _ Hd) as [H|(d0 & H0 & ->)];
      [exact (IH d H) | exact (IH d0 H0)].
Qed.

(** X18. What a list shows can be used: in every collection reached from the
    empty one, a list answered 200 shows pairwise distinct [id] texts, each
    of 24 characters, each accepted by [IsObjectIdHex] and read by
    [ObjectIdHex] as the identifier of the document it was listed for. *)
Theorem listed_ids_usable (c : mongo.Collection) (e : env) (resp : response) :
  reachable c ->
  out (run (fetchTodos e) c) = Responded resp -> status resp = StatusOK ->
  exists l,
    content resp = M [("data", Todos (elems l))]
    /\ List.length l = List.length c
    /\ NoDup (map t_ID l)
    /\ map (fun t => bson.ObjectIdHex (t_ID t)) l = map (fun d => Some (m_ID d)) c
    /\ forall t, In t l ->
         String.length (t_ID t) = 24%nat /\ bson.IsObjectIdHex (t_ID t) = true.
Proof.
  intros R Hout Hst.
  destruct (fetchTodos_cases e c) as [(_ & E)|(err & _ & E)];
    rewrite E in Hout; cbn [out] in Hout; inversion Hout; subst resp;
    [|discriminate Hst].
  exists (map as_todo c). split; [reflexivity|].
  pose proof (reachable_ids c R) as L12.
  destruct (reachable_invariant c R) as (_ & N).
  split; [apply length_map|]. split; [|split].
  - rewrite map_map. cbn [as_todo t_ID].
    clear - N. induction c as [|d c IH]; [constructor|].
    cbn [map] in *. inversion N as [|? ? Hd Hc]; subst.
    constructor; [|exact (IH Hc)].
    intro Hin. apply Hd. apply in_map_iff in Hin. destruct Hin as (d' & E & Hd').
    apply in_map_iff. exists d'. split; [|exact Hd'].
    unfold bson.Hex in E.
    pose proof (DecodeString_EncodeToString (m_ID d')) as D.
    rewrite E, DecodeString_EncodeToString in D. inversion D. reflexivity.
  - rewrite map_map. apply map_ext_in. intros d Hd. cbn [as_todo t_ID].
    apply (Hex_of_12_bytes (m_ID d) (L12 d Hd)).
  - intros t Ht. apply in_map_iff in Ht. destruct Ht as (d & <- & Hd).
    cbn [as_todo t_ID].
    destruct (Hex_of_12_bytes (m_ID d) (L12 d Hd)) as (L24 & _ & V & _).
    split; assumption.
Qed.

Lemma listed_ids_usable_witness :
  exists l,
    M [("data", Todos (elems [as_todo {| m_ID := sample.milk_id; m_Title := "buy milk";
                                         m_Completed := false; m_CreatedAt := 1000 |}]))]
    = M [("data", Todos (elems l))]
    /\ List.length l
       = List.length (snd (serve POST_todo (sample.with_body "" (Some "buy milk") None)
                             sample.calm []))
    /\ NoDup (map t_ID l)
    /\ map (fun t => bson.ObjectIdHex (t_ID t)) l
       = map (fun d => Some (m_ID d))
           (snd (serve POST_todo (sample.with_body "" (Some "buy milk") None)
                   sample.calm []))
    /\ forall t, In t l ->
         String.length (t_ID t) = 24%nat /\ bson.IsObjectIdHex (t_ID t) = true.
Proof.
  exact (listed_ids_usable
           (snd (serve POST_todo (sample.with_body "" (Some "buy milk") None)
                   sample.calm []))
           sample.calm
           {| status := StatusOK;
              content := M [("data", Todos (elems [as_todo
                              {| m_ID := sample.milk_id; m_Title := "buy milk";
                                 m_Completed := false; m_CreatedAt := 1000 |}]))] |}
           (reach_serve [] POST_todo (sample.with_body "" (Some "buy milk") None)
              sample.calm reach_empty)
           eq_refl eq_refl).
Defined.

(** X19. The status codes of each route, through the recovery middleware:
    a list is answered 200 or 102; a create 201, 400 or 102; a delete 200,
    400 or 102; an update 200, 400, 102 or, after a panic, 500. No route
    answers "not found" for an identifier that is stored nowhere. *)
Theorem serve_status (rt : route) (r : request) (e : env) (c : mongo.Collection) :
  let st := status (fst (serve rt r e c)) in
  match rt with
  | GET_todo => st = StatusOK \/ st = StatusProcessing
  | POST_todo => st = StatusCreated \/ st = StatusBadRequest \/ st = StatusProcessing
  | DELETE_todo_id => st = StatusOK \/ st = StatusBadRequest \/ st = StatusProcessing
  | PUT_todo_id =>
      st = StatusOK \/ st = StatusBadRequest \/ st = StatusProcessing
      \/ (st = StatusInternalServerError
          /\ out (run (updateTodo r e) c) = Panicked (URLParam_id r))
  end.
Proof.
  unfold serve. cbn [fst]. destruct rt; cbn [todoHandlers].
  - destruct (fetchTodos_cases e c) as [(_ & R)|(err & _ & R)]; rewrite R;
      cbn; tauto.
  - destruct (Body r) as [err|f] eqn:HB.
    { run_handler. rewrite HB. cbn. tauto. }
    destruct (String.eqb (or_keep (f_title f) "") "") eqn:ET.
    { run_handler. rewrite HB, Decode_fresh. cbn [t_Title]. rewrite ET. cbn. tauto. }
    destruct (or_keep_title f ET) as (HT & Hne).
    rewrite (createTodo_run r e c f _ HB HT Hne).
    destruct (mongo.InsertOne c _ (writes e)) as [c' [err|]]; cbn; tauto.
  - destruct (updateTodo_stops r e c)
      as [(_ & R)|[(err & _ & R)|[(f & _ & _ & R)|[(_ & R)|(f & id & HB & HT & Hid)]]]];
      try (rewrite R; cbn; tauto).
    rewrite (updateTodo_run r e c f id HB HT Hid).
    destruct (mongo.UpdateOne c id _ _ (writes e)) as [c' [err|]]; cbn; tauto.
  - destruct (bson.IsObjectIdHex (URLParam_id r)) eqn:V.
    + destruct (IsObjectIdHex_ObjectIdHex _ V) as (id & Hid).
      rewrite (deleteTodo_run r e c id Hid).
      destruct (mongo.DeleteOne c id (writes e)) as [c' [err|]]; cbn; tauto.
    + run_handler. rewrite V. cbn. tauto.
Qed.

(** ** Generated identifiers *)

Lemma byte_inj (x y : Z) : bson.byte x = bson.byte y -> x mod 256 = y mod 256.
Proof.
  unfold bson.byte. intro H. apply (f_equal N_of_ascii) in H.
  assert (B : forall z, (Z.to_N (z mod 256) < 256)%N).
  { intro z. pose proof (Z.mod_pos_bound z 256 eq_refl). lia. }
  rewrite !N_ascii_embedding in H by apply B.
  pose proof (Z.mod_pos_bound x 256 eq_refl).
  pose proof (Z.mod_pos_bound y 256 eq_refl). lia.
Qed.

(** A number below [256 ^ 3] from its three bytes. *)
Lemma three_bytes (i : Z) :
  i mod 2 ^ 24
  = (Z.shiftr i 16 mod 256) * 65536 + (Z.shiftr i 8 mod 256) * 256 + i mod 256.
Proof.
  rewrite !Z.shiftr_div_pow2 by lia.
  change (2 ^ 24) with (256 * (256 * 256)). change (2 ^ 16) with (256 * 256).
  change (2 ^ 8) with 256.
  rewrite (Z.rem_mul_r i 256 (256 * 256)) by lia.
  rewrite (Z.rem_mul_r (i / 256) 256 256) by lia.
  rewrite Z.div_div by lia. lia.
Qed.

Lemma four_bytes (i : Z) :
  i mod 2 ^ 32
  = (Z.shiftr i 24 mod 256) * 16777216 + (Z.shiftr i 16 mod 256) * 65536
    + (Z.shiftr i 8 mod 256) * 256 + i mod 256.
Proof.
  rewrite !Z.shiftr_div_pow2 by lia.
  change (2 ^ 32) with (256 * (256 * (256 * 256))). change (2 ^ 24) with (256 * 256 * 256).
  change (2 ^ 16) with (256 * 256). change (2 ^ 8) with 256.
  rewrite (Z.rem_mul_r i 256 (256 * (256 * 256))) by lia.
  rewrite (Z.rem_mul_r (i / 256) 256 (256 * 256)) by lia.
  rewrite (Z.rem_mul_r (i / 256 / 256) 256 256) by lia.
  rewrite !Z.div_div by lia. lia.
Qed.

(** X20. What a generated identifier holds: two identifiers from
    [NewObjectId] are equal only if the clocks agree in their low 32 bits,
    the machine bytes agree, the process ids agree in their low 16 bits and
    the counters agree in their low 24 bits. Within one process and one
    second, identifiers whose counters differ modulo [2 ^ 24] differ. *)
Theorem NewObjectId_holds (s1 s2 : bson.source) :
  bson.NewObjectId s1 = bson.NewObjectId s2 ->
  bson.unix s1 mod 2 ^ 32 = bson.unix s2 mod 2 ^ 32
  /\ bson.machineId s1 = bson.machineId s2
  /\ bson.processId s1 mod 2 ^ 16 = bson.processId s2 mod 2 ^ 16
  /\ bson.objectIdCounter s1 mod 2 ^ 24 = bson.objectIdCounter s2 mod 2 ^ 24.
Proof.
  unfold bson.NewObjectId.
  destruct (bson.machineId s1) as [[a0 a1] a2]. destruct (bson.machineId s2) as [[b0 b1] b2].
  cbn [string_of_list_ascii]. intro H.
  inversion H as [[T3 T2 T1 T0 M0 M1 M2 P1 P0 C2 C1 C0]]. clear H.
  apply byte_inj in T3, T2, T1, T0, P1, P0, C2, C1, C0.
  change (Z.pow_pos 2 32) with (2 ^ 32) in *.
  split; [|split; [congruence|split]].
  - pose proof (four_bytes (bson.unix s1 mod 2 ^ 32)) as F1.
    pose proof (four_bytes (bson.unix s2 mod 2 ^ 32)) as F2.
    rewrite Z.mod_mod in F1, F2 by lia. rewrite F1, F2, T3, T2, T1, T0. reflexivity.
  - pose proof (Z.rem_mul_r (bson.processId s1) 256 256) as F1.
    pose proof (Z.rem_mul_r (bson.processId s2) 256 256) as F2.
    rewrite Z.shiftr_div_pow2 in P1 by lia. change (2 ^ 8) with 256 in P1.
    rewrite (Z.shiftr_div_pow2 (bson.processId s2)) in P1 by lia.
    change (2 ^ 8) with 256 in P1.
    change (2 ^ 16) with (256 * 256). rewrite F1, F2 by lia. rewrite P1, P0. reflexivity.
  - pose proof (three_bytes (bson.objectIdCounter s1 mod 2 ^ 32)) as F1.
    pose proof (three_bytes (bson.objectIdCounter s2 mod 2 ^ 32)) as F2.
    rewrite C2, C1, C0 in F1. rewrite <- F2 in F1.
    assert (R : forall z, (z mod 2 ^ 32) mod 2 ^ 24 = z mod 2 ^ 24).
    { intro z. change (2 ^ 32) with (2 ^ 24 * 2 ^ 8).
      rewrite Z.rem_mul_r by lia.
      rewrite Z.mul_comm, Z.mod_add by lia. apply Z.mod_mod. lia. }
    rewrite !R in F1. exact F1.
Qed.

Lemma NewObjectId_holds_witness :
  bson.objectIdCounter sample.ids mod 2 ^ 24 = (7 + 2 ^ 24) mod 2 ^ 24.
Proof.
  exact (proj2 (proj2 (proj2
           (NewObjectId_holds sample.ids
              {| bson.unix := 1700000000 + 2 ^ 32;
                 bson.machineId := ("a"%char, "b"%char, "c"%char);
                 bson.processId := 4242 + 2 ^ 16;
                 bson.objectIdCounter := 7 + 2 ^ 24 |}
              eq_refl)))).
Defined.
